(** * googlecl calendar service: a shallow embedding of
      [trunk/src/googlecl/calendar/service.py]

    The module is a thin command-line client of a remote calendar service.
    Its own logic is the date-range splitter [get_start_and_end], the query
    construction of [get_events], the batch construction of
    [quick_add_event] and the delete policy of [delete_events] and
    [_batch_delete_recur].  Everything that leaves the module (the gdata
    client, the helpers of [googlecl.util], the terminal, the clock) is an
    interface here, and every call through it is recorded in a trace. *)

From Stdlib Require Import String Ascii List ZArith Bool Lia Permutation.
From Stdlib Require Decimal DecimalString DecimalNat.
Import ListNotations.

Local Open Scope string_scope.
Local Open Scope list_scope.

(** ** Python values used by the module *)

Module Py.

(** Exceptions that can leave a function of the module. *)
Inductive exc : Type :=
| TypeError        (* iterating [None] *)
| AttributeError   (* attribute of [None] *)
| ValueError       (* [int] of a non-number *)
| IndexError       (* list index out of range *)
| EOFError         (* [raw_input] at end of input *)
| Raised (what : string).  (* raised by a collaborator *)

(** Truth value of a [str] or [None]: only [None] and [''] are false. *)
Definition truthy (s : option string) : bool :=
  match s with
  | None => false
  | Some s => negb (s =? "")
  end.

(** Truth value of an object without [__len__]/[__nonzero__], or [None]. *)
Definition is_obj {A : Type} (o : option A) : bool :=
  match o with
  | None => false
  | Some _ => true
  end.

(** [s.partition(sep)] for a one-character separator: the text before the
    first separator, the separator, the text after it; without a separator
    [(s, '', '')]. *)
Fixpoint partition (sep : ascii) (s : string) : string * string * string :=
  match s with
  | EmptyString => ("", "", "")
  | String c r =>
      if Ascii.eqb c sep then ("", String sep "", r)
      else let '(before, found, after) := partition sep r in
           (String c before, found, after)
  end.

(** [s.split(sep)] for a one-character separator: never empty. *)
Fixpoint split (sep : ascii) (s : string) : list string :=
  match s with
  | EmptyString => [""]
  | String c r =>
      if Ascii.eqb c sep then "" :: split sep r
      else match split sep r with
           | piece :: pieces => String c piece :: pieces
           | [] => [String c ""]
           end
  end.

(** [l[-k]] for [k >= 1]; [None] stands for [IndexError]. *)
Definition from_end {A : Type} (l : list A) (k : nat) : option A :=
  match k with
  | O => None
  | S k' => nth_error (rev l) k'
  end.

(** [str(i)] for a non-negative index. *)
Definition str_of_nat (i : nat) : string :=
  DecimalString.NilEmpty.string_of_uint (Nat.to_uint i).

(** ['%s' % v] for a [str] or [None]. *)
Definition percent_s (v : option string) : string :=
  match v with
  | None => "None"
  | Some s => s
  end.

(** The text of a [str] that a guard has already found true. *)
Definition text (v : option string) : string :=
  match v with
  | None => ""
  | Some s => s
  end.

(** [enumerate(l)]. *)
Definition enumerate {A : Type} (l : list A) : list (nat * A) :=
  combine (seq 0 (length l)) l.

(** *** [int(s)] on a [str], base ten *)

Definition is_space (c : ascii) : bool :=
  let n := nat_of_ascii c in
  (n =? 32)%nat || ((9 <=? n)%nat && (n <=? 13)%nat).

Definition digit (c : ascii) : option Z :=
  let n := nat_of_ascii c in
  if ((48 <=? n)%nat && (n <=? 57)%nat)%bool then Some (Z.of_nat (n - 48))
  else None.

Fixpoint lstrip (s : list ascii) : list ascii :=
  match s with
  | c :: r => if is_space c then lstrip r else s
  | [] => []
  end.

Definition strip (s : list ascii) : list ascii :=
  rev (lstrip (rev (lstrip s))).

Fixpoint digits (acc : Z) (s : list ascii) : option Z :=
  match s with
  | [] => Some acc
  | c :: r =>
      match digit c with
      | Some d => digits (10 * acc + d) r
      | None => None
      end
  end.

Definition unsigned (s : list ascii) : option Z :=
  match s with
  | [] => None
  | _ :: _ => digits 0 s
  end.

(** [None] stands for [ValueError]. *)
Definition int (s : string) : option Z :=
  match strip (list_ascii_of_string s) with
  | "-"%char :: r => option_map Z.opp (unsigned r)
  | "+"%char :: r => unsigned r
  | r => unsigned r
  end.

(** *** [urllib.unquote(s)] *)

Definition hex_digit (c : ascii) : option nat :=
  let n := nat_of_ascii c in
  if ((48 <=? n) && (n <=? 57))%nat then Some (n - 48)
  else if ((65 <=? n) && (n <=? 70))%nat then Some (n - 55)
  else if ((97 <=? n) && (n <=? 102))%nat then Some (n - 87)
  else None.

(** Every [%XY] with two hexadecimal digits becomes the character of that
    code; a [%] not followed by two such digits stays as it is. *)
Fixpoint unquote (s : string) : string :=
  match s with
  | EmptyString => EmptyString
  | String c r =>
      if Ascii.eqb c "%" then
        match r with
        | String a (String b r') =>
            match hex_digit a, hex_digit b with
            | Some x, Some y => String (ascii_of_nat (16 * x + y)) (unquote r')
            | _, _ => String c (unquote r)
            end
        | _ => String c (unquote r)
        end
      else String c (unquote r)
  end.

End Py.

(** ** The date-range splitter *)

(** [get_start_and_end(date)], lines 220-238.  [today] is the value of
    [datetime.datetime.today().strftime(util.DATE_FORMAT)] at the call;
    [util.DATE_FORMAT] belongs to [googlecl.util]. *)
Definition get_start_and_end (today : string) (date : option string)
  : string * option string :=
  match date with
  | Some d =>
      if negb (d =? "") && negb (d =? ",") then
        (* Partition won't choke on date == '2010-06-05', split will. *)
        let '(start, junk, end_) := Py.partition "," d in
        (start, Some end_)
      else
        (* If no date is given, set a start of today. *)
        (today, None)
  | None => (today, None)
  end.

(** ** Data model: the gdata objects the module reads and builds *)

(** An [atom.Link]. *)
Record Link : Type := { rel : string; href : string }.

(** A [gdata.calendar.OriginalEvent]: the back-reference of an expanded
    instance to its series. *)
Record OriginalEvent : Type := { original_id : option string }.

(** A [gdata.calendar.CalendarEventEntry], with the attributes the module
    reads: [id.text], [title.text], [recurrence] (an object or [None]),
    [event_status.value], [original_event] (an object or [None]) and the
    [link] list that [GetEditLink] searches.  Entries of a calendar feed
    always carry an id and an event status, so these two are plain
    strings. *)
Record CalendarEventEntry : Type := {
  id_text : string;
  title_text : option string;
  recurrence : option string;
  event_status_value : string;
  original_event : option OriginalEvent;
  link : list Link
}.

(** A [gdata.calendar.CalendarListEntry]: [content.src] is its feed. *)
Record CalendarListEntry : Type := { content_src : string }.

(** A [gdata.calendar.service.CalendarEventQuery]; a parameter that was
    never assigned is [None]. *)
Record CalendarEventQuery : Type := {
  user : string;
  text_query : option string;
  start_min : option string;
  start_max : option string;
  singleevents : option string;
  orderby : option string;
  sortorder : option string;
  max_results : option Z
}.

(** An entry of the request feed after [AddInsert]: [content] text,
    [quick_add] value and the batch id given to [AddInsert]. *)
Record InsertRequest : Type := {
  content_text : string;
  quick_add_value : string;
  batch_id : string
}.

(** The attributes [util.BaseServiceCL.set_params] stores on the client. *)
Record CalendarServiceCL : Type := {
  use_regex : bool;
  prompt_for_tags : bool;
  prompt_for_delete : bool
}.

(** [entry.GetEditLink()]: the first link whose [rel] is ['edit']. *)
Definition GetEditLink (e : CalendarEventEntry) : option Link :=
  find (fun a_link => rel a_link =? "edit") (link e).

(** Command-line options read by the [_run_*] tasks. *)
Record Options : Type := {
  opt_date : option string;
  opt_title : option string;
  opt_query : option string;
  opt_cal : option string;
  opt_delimiter : string
}.

(** ** Effects *)

(** Every call that leaves the module, with its arguments. *)
Inductive Call : Type :=
| CPrint (line : string)
| CRawInput (prompt : string)
| CConfigGetBoolean (section option : string)
| CGetConfigOption (section option : string)
| CGetEntries (query : CalendarEventQuery) (title : option string)
| CGetSingleEntry (uri : string) (title : string)
| CUtilDelete (entries : list CalendarEventEntry) (entry_type : string)
    (delete_default : bool)
| CGDataDelete (uri : string)
| CExecuteBatch (feed : list InsertRequest) (uri : string).

(** What the program runs in: the unread lines of standard input, the
    formatted date of the clock, and the state of everything remote. *)
Record World (Remote : Type) : Type := {
  stdin : list string;
  today : string;
  remote : Remote
}.
Arguments stdin {Remote} _.
Arguments today {Remote} _.
Arguments remote {Remote} _.

(** A collaborator answers in a world, may change it, and may raise. *)
Definition Reply (Remote A : Type) : Type :=
  World Remote -> World Remote * (Py.exc + A).

(** The collaborators: methods the client inherits from
    [googlecl.util.BaseServiceCL] and [gdata.service.GDataService], the
    configuration, and [urllib.unquote].  [GetEntries] receives the query
    whose [ToUri()] the code passes. *)
Class Collaborators (Remote : Type) : Type := {
  util_GetEntries : CalendarServiceCL -> CalendarEventQuery ->
                    option string -> Reply Remote (list CalendarEventEntry);
  util_GetSingleEntry : CalendarServiceCL -> string -> string ->
                        Reply Remote (option CalendarListEntry);
  util_Delete : CalendarServiceCL -> list CalendarEventEntry -> string ->
                bool -> Reply Remote unit;
  config_getboolean : string -> string -> Reply Remote bool;
  util_get_config_option : string -> string -> Reply Remote string;
  util_entry_to_string : CalendarEventEntry -> list string -> string -> string;
  SECTION_HEADER : string;
  gdata_Delete : string -> Reply Remote unit;
  gdata_ExecuteBatch : list InsertRequest -> string ->
                       Reply Remote (list CalendarEventEntry);
  urllib_unquote : string -> string
}.

(** The monad of the embedding: state, exceptions, and the trace of calls. *)
Definition M (Remote A : Type) : Type :=
  World Remote -> list Call * World Remote * (Py.exc + A).

Definition ret {Remote A : Type} (a : A) : M Remote A :=
  fun w => ([], w, inr a).

Definition raise {Remote A : Type} (e : Py.exc) : M Remote A :=
  fun w => ([], w, inl e).

Definition bind {Remote A B : Type} (m : M Remote A) (k : A -> M Remote B)
  : M Remote B :=
  fun w =>
    match m w with
    | (t1, w1, inl e) => (t1, w1, inl e)
    | (t1, w1, inr a) =>
        match k a w1 with
        | (t2, w2, r) => (t1 ++ t2, w2, r)
        end
    end.

Declare Scope py_scope.
Delimit Scope py_scope with py.
Notation "x <- m ;; k" := (bind m (fun x => k))
  (at level 61, m at next level, right associativity) : py_scope.
Notation "m ;; k" := (bind m (fun _ => k))
  (at level 61, right associativity) : py_scope.

(** A call through the interface: recorded, then answered. *)
Definition call {Remote A : Type} (c : Call) (answer : Reply Remote A)
  : M Remote A :=
  fun w => let '(w', r) := answer w in ([c], w', r).

(** [x] where the code needs an object: [None] raises [e]. *)
Definition need {Remote A : Type} (e : Py.exc) (x : option A) : M Remote A :=
  match x with
  | Some a => ret a
  | None => raise e
  end.

(** [for x in l: body]. *)
Fixpoint for_each {Remote A : Type} (l : list A) (body : A -> M Remote unit)
  : M Remote unit :=
  match l with
  | [] => ret tt
  | x :: rest => bind (body x) (fun _ => for_each rest body)
  end.

(** The three projections of a run. *)
Definition trace_of {Remote A : Type} (r : list Call * World Remote * (Py.exc + A))
  : list Call := fst (fst r).
Definition world_of {Remote A : Type} (r : list Call * World Remote * (Py.exc + A))
  : World Remote := snd (fst r).
Definition result_of {Remote A : Type} (r : list Call * World Remote * (Py.exc + A))
  : Py.exc + A := snd r.

(** ** The client *)

Definition nl : string := String (ascii_of_nat 10) EmptyString.
Definition dquote : string := String (ascii_of_nat 34) EmptyString.

Section Client.

Context {Remote : Type} {svc : Collaborators Remote}.
Local Open Scope py_scope.

(** [print line]. *)
Definition py_print (line : string) : M Remote unit :=
  fun w => ([CPrint line], w, inr tt).

(** [raw_input(prompt)]: one line of standard input, [EOFError] at its end. *)
Definition raw_input (prompt : string) : M Remote string :=
  fun w =>
    match stdin w with
    | [] => ([CRawInput prompt], w, inl Py.EOFError)
    | line :: rest =>
        ([CRawInput prompt],
         {| stdin := rest; today := today w; remote := remote w |},
         inr line)
    end.

(** [datetime.datetime.today().strftime(util.DATE_FORMAT)]. *)
Definition clock_today : M Remote string :=
  fun w => ([], w, inr (today w)).

(** [get_calendar(self, cal_name)], lines 141-153. *)
Definition get_calendar (self : CalendarServiceCL) (cal_name : string)
  : M Remote (option CalendarListEntry) :=
  call (CGetSingleEntry "/calendar/feeds/default/allcalendars/full" cal_name)
       (util_GetSingleEntry self "/calendar/feeds/default/allcalendars/full"
                            cal_name).

(** The query of [get_events], lines 192-203, from the user it resolved
    and the pair [get_start_and_end] returned.  The constructor of the
    query stores the text query only when it is true, as lines 195-200
    do for the other parameters. *)
Definition event_query (user_ : string) (query : option string)
    (range : string * option string) (max_results_ : Z)
    (expand_recurrence : bool) : CalendarEventQuery :=
  let '(smin, smax) := range in
  {| user := user_;
     text_query := if Py.truthy query then query else None;
     start_min := if Py.truthy (Some smin) then Some smin else None;
     start_max := if Py.truthy smax then smax else None;
     singleevents := if expand_recurrence then Some "true" else None;
     orderby := Some "starttime";
     sortorder := Some "ascend";
     max_results := Some max_results_ |}.

(** Lines 192-205 of [get_events]: build the query and fetch. *)
Definition fetch_events (self : CalendarServiceCL) (user_ : string)
    (date title query : option string) (max_results_ : Z)
    (expand_recurrence : bool) : M Remote (option (list CalendarEventEntry)) :=
  now <- clock_today ;;
  let q := event_query user_ query (get_start_and_end now date)
                       max_results_ expand_recurrence in
  entries <- call (CGetEntries q title) (util_GetEntries self q title) ;;
  ret (Some entries).

(** [get_events(self, date, title, query, calendar, max_results,
    expand_recurrence)], lines 157-205.  The result is a list, or [None]
    after the bare [return] of line 191. *)
Definition get_events (self : CalendarServiceCL)
    (date title query calendar : option string) (max_results_ : Z)
    (expand_recurrence : bool) : M Remote (option (list CalendarEventEntry)) :=
  if Py.truthy calendar then
    cal <- get_calendar self (Py.text calendar) ;;
    match cal with
    | Some c =>
        (* grab the part after /feeds/ and unquote it *)
        part <- need Py.IndexError
                  (Py.from_end (Py.split "/" (content_src c)) 3) ;;
        fetch_events self (urllib_unquote part) date title query
                     max_results_ expand_recurrence
    | None =>
        py_print ("No calendar matching title " ++ Py.text calendar ++ ".") ;;
        ret None
    end
  else
    fetch_events self "default" date title query max_results_
                 expand_recurrence.

(** [request_feed.AddInsert(event, batch_id_string)] for an event with the
    given content and [quick_add] value. *)
Definition AddInsert (request_feed : list InsertRequest)
    (content quick_add batch_id_string : string) : list InsertRequest :=
  request_feed ++ [ {| content_text := content;
                       quick_add_value := quick_add;
                       batch_id := batch_id_string |} ].

(** The loop of lines 131-135. *)
Definition quick_add_feed (quick_add_strings : list string)
  : list InsertRequest :=
  fold_left
    (fun request_feed '(i, event_str) =>
       AddInsert request_feed event_str "true"
                 ("insert-request" ++ Py.str_of_nat i))
    (Py.enumerate quick_add_strings) [].

(** Lines 131-137 of [quick_add_event]. *)
Definition execute_quick_add (quick_add_strings : list string)
    (cal_uri : string) : M Remote (option (list CalendarEventEntry)) :=
  let request_feed := quick_add_feed quick_add_strings in
  entry <- call (CExecuteBatch request_feed (cal_uri ++ "/batch"))
                (gdata_ExecuteBatch request_feed (cal_uri ++ "/batch")) ;;
  ret (Some entry).

(** [quick_add_event(self, quick_add_strings, calendar)], lines 107-137. *)
Definition quick_add_event (self : CalendarServiceCL)
    (quick_add_strings : list string) (calendar : option string)
  : M Remote (option (list CalendarEventEntry)) :=
  if Py.truthy calendar then
    cal <- get_calendar self (Py.text calendar) ;;
    match cal with
    | None => ret None
    | Some c => execute_quick_add quick_add_strings (content_src c)
    end
  else
    execute_quick_add quick_add_strings "/calendar/feeds/default/private/full".

(** [gdata.service.GDataService.Delete(self, entry.GetEditLink().href)]. *)
Definition delete_by_edit_link (entry : CalendarEventEntry) : M Remote unit :=
  a_link <- need Py.AttributeError (GetEditLink entry) ;;
  call (CGDataDelete (href a_link)) (gdata_Delete (href a_link)).

(** The filter of lines 56-57:
    [e.original_event and
     e.original_event.id == event.id.text.split('/')[-1]]. *)
Definition instance_of (event e : CalendarEventEntry) : bool :=
  match original_event e with
  | Some o =>
      match original_id o with
      | Some i => i =? last (Py.split "/" (id_text event)) ""
      | None => false
      end
  | None => false
  end.

(** [_batch_delete_recur(self, date, event, calendar)], lines 51-61. *)
Definition _batch_delete_recur (self : CalendarServiceCL)
    (date : option string) (event : CalendarEventEntry)
    (calendar : option string) : M Remote unit :=
  got <- get_events self date (title_text event) None calendar 100 true ;;
  single_events <- need Py.TypeError got ;;
  let delete_events := filter (instance_of event) single_events in
  (* For some reason, batch requests always fail... Do it the slow way. *)
  for_each delete_events delete_by_edit_link.

(** The loop of lines 93-95 on the unread lines of standard input: the
    calls made, the lines left, and the selection or the exception. *)
Fixpoint read_selection (prompt : string) (lines : list string)
  : list Call * list string * (Py.exc + Z) :=
  match lines with
  | [] => ([CRawInput prompt], [], inl Py.EOFError)
  | line :: rest =>
      match Py.int line with
      | None => ([CRawInput prompt], rest, inl Py.ValueError)
      | Some delete_selection =>
          if (delete_selection <? 1)%Z || (delete_selection >? 4)%Z then
            let '(t, unread, r) := read_selection prompt rest in
            (CRawInput prompt :: t, unread, r)
          else ([CRawInput prompt], rest, inr delete_selection)
      end
  end.

Definition ask_selection (prompt : string) : M Remote Z :=
  fun w =>
    let '(t, unread, r) := read_selection prompt (stdin w) in
    (t, {| stdin := unread; today := today w; remote := remote w |}, r).

(** The two lists of lines 73-75. *)
Definition single_events_of (events : list CalendarEventEntry)
  : list CalendarEventEntry :=
  filter (fun e => negb (Py.is_obj (recurrence e)) &&
                   negb (event_status_value e =? "CANCELED")) events.

Definition recurring_events_of (events : list CalendarEventEntry)
  : list CalendarEventEntry :=
  filter (fun e => Py.is_obj (recurrence e)) events.

(** [start_date] and [end_date] after lines 81-85. *)
Definition prompt_dates (range : string * option string) : string * string :=
  let '(start_date, end_date) := range in
  let end_date := if negb (Py.truthy end_date) then "the distant future"
                  else Py.text end_date in
  let start_date := if negb (Py.truthy (Some start_date))
                    then "the dawn of time" else start_date in
  (start_date, end_date).

(** [prompt_str], lines 86-89. *)
Definition prompt_str (start_date end_date : string) : string :=
  "1) Instances between " ++ start_date ++ " and " ++ end_date ++ nl ++
  "2) All events in this series" ++ nl ++
  "3) All events following " ++ end_date ++ nl ++
  "4) Do not delete".

(** The body of the loop of lines 90-103 for one recurring event. *)
Definition delete_recurring (self : CalendarServiceCL)
    (date : option string) (start_date end_date : string)
    (calendar : option string) (event : CalendarEventEntry) : M Remote unit :=
  if prompt_for_delete self then
    delete_selection <-
      ask_selection ("Delete " ++ dquote ++ Py.percent_s (title_text event)
                     ++ dquote ++ "?" ++ nl
                     ++ prompt_str start_date end_date ++ nl) ;;
    if (delete_selection =? 1)%Z then
      _batch_delete_recur self date event calendar
    else if (delete_selection =? 2)%Z then
      delete_by_edit_link event
    else if (delete_selection =? 3)%Z then
      _batch_delete_recur self (Some start_date) event calendar
    else ret tt
  else
    delete_by_edit_link event.

(** [delete_events(self, events, date, calendar)], lines 63-103; [events]
    is what [get_events] returned. *)
Definition delete_events (self : CalendarServiceCL)
    (events : option (list CalendarEventEntry)) (date calendar : option string)
  : M Remote unit :=
  events <- need Py.TypeError events ;;
  let single_events := single_events_of events in
  let recurring_events := recurring_events_of events in
  delete_default <- call (CConfigGetBoolean "GENERAL" "delete_by_default")
                         (config_getboolean "GENERAL" "delete_by_default") ;;
  call (CUtilDelete single_events "event" delete_default)
       (util_Delete self single_events "event" delete_default) ;;
  now <- clock_today ;;
  let '(start_date, end_date) := prompt_dates (get_start_and_end now date) in
  for_each recurring_events
           (delete_recurring self date start_date end_date calendar).

(** [_run_list(client, options, args)], lines 250-260. *)
Definition _run_list (client : CalendarServiceCL) (options : Options)
    (args : list string) : M Remote unit :=
  entries <- get_events client (opt_date options) (opt_title options)
                        (opt_query options) (opt_cal options) 100 true ;;
  style_list <-
    match args with
    | a :: _ => ret (Py.split "," a)
    | [] =>
        s <- call (CGetConfigOption SECTION_HEADER "list_style")
                  (util_get_config_option SECTION_HEADER "list_style") ;;
        ret (Py.split "," s)
    end ;;
  entries <- need Py.TypeError entries ;;
  for_each entries
           (fun e => py_print (util_entry_to_string e style_list
                                                    (opt_delimiter options))).

(** [_run_add(client, options, args)], lines 271-272. *)
Definition _run_add (client : CalendarServiceCL) (options : Options)
    (args : list string) : M Remote unit :=
  quick_add_event client args (opt_cal options) ;;
  ret tt.

(** [_run_delete(client, options, args)], lines 275-279. *)
Definition _run_delete (client : CalendarServiceCL) (options : Options)
    (args : list string) : M Remote unit :=
  events <- get_events client (opt_date options) (opt_title options)
                       (opt_query options) (opt_cal options) 100 false ;;
  delete_events client events (opt_date options) (opt_cal options).

End Client.

(** Helpers of the statements below. *)

(** The [href] of the edit link of an entry, when it has one. *)
Definition edit_href (e : CalendarEventEntry) : option string :=
  option_map href (GetEditLink e).

(** The list [get_events] returned, empty when it returned [None] or raised. *)
Definition fetched_list {A : Type} (r : Py.exc + option (list A)) : list A :=
  match r with
  | inr (Some l) => l
  | _ => []
  end.

(** The events of the input that [delete_events] puts in neither list:
    no recurrence and status ['CANCELED']. *)
Definition cancelled_singletons_of (events : list CalendarEventEntry)
  : list CalendarEventEntry :=
  filter (fun e => negb (Py.is_obj (recurrence e)) &&
                   (event_status_value e =? "CANCELED")) events.

(** No comma occurs in [s]. *)
Fixpoint no_comma (s : string) : bool :=
  match s with
  | EmptyString => true
  | String c r => negb (Ascii.eqb c ",") && no_comma r
  end.

(** The insertion item the loop of [quick_add_event] builds at index [i]. *)
Definition insert_item (i : nat) (event_str : string) : InsertRequest :=
  {| content_text := event_str;
     quick_add_value := "true";
     batch_id := "insert-request" ++ Py.str_of_nat i |}.

(** ** An in-memory calendar service

    A small stand-in for the remote service, used to run the client on
    concrete inputs: named calendars, the collapsed and the expanded view
    of the events, and the edit links deleted so far. *)

Module InMemory.

Record Store : Type := {
  calendars : list (string * CalendarListEntry);
  collapsed : list CalendarEventEntry;
  expanded : list CalendarEventEntry;
  deleted : list string
}.

Definition same_title (title : option string) (e : CalendarEventEntry) : bool :=
  match title, title_text e with
  | None, _ => true
  | Some t, Some t' => t =? t'
  | Some _, None => false
  end.

Definition entries_for (q : CalendarEventQuery) (title : option string)
    (s : Store) : list CalendarEventEntry :=
  filter (same_title title)
         (if Py.is_obj (singleevents q) then expanded s else collapsed s).

Definition calendar_named (name : string) (s : Store)
  : option CalendarListEntry :=
  option_map snd (find (fun c => fst c =? name) (calendars s)).

Definition mark_deleted (uri : string) (w : World Store) : World Store :=
  {| stdin := stdin w;
     today := today w;
     remote := {| calendars := calendars (remote w);
                  collapsed := collapsed (remote w);
                  expanded := expanded (remote w);
                  deleted := deleted (remote w) ++ [uri] |} |}.

#[global] Instance service : Collaborators Store := {
  util_GetEntries := fun _ q title w => (w, inr (entries_for q title (remote w)));
  util_GetSingleEntry := fun _ _ name w => (w, inr (calendar_named name (remote w)));
  util_Delete := fun _ _ _ _ w => (w, inr tt);
  config_getboolean := fun _ _ w => (w, inr true);
  util_get_config_option := fun _ _ w => (w, inr "title");
  util_entry_to_string := fun e _ _ => Py.percent_s (title_text e);
  SECTION_HEADER := "CALENDAR";
  gdata_Delete := fun uri w => (mark_deleted uri w, inr tt);
  gdata_ExecuteBatch := fun _ _ w => (w, inr []);
  urllib_unquote := Py.unquote
}.

Definition edit_link (uri : string) : list Link :=
  [ {| rel := "self"; href := uri |}; {| rel := "edit"; href := uri ++ "/edit" |} ].

(** A weekly series and a second one. *)
Definition standup : CalendarEventEntry :=
  {| id_text := "http://www.google.com/calendar/feeds/default/private/full/abc";
     title_text := Some "Standup";
     recurrence := Some "RRULE:FREQ=WEEKLY";
     event_status_value := "CONFIRMED";
     original_event := None;
     link := edit_link "/full/abc" |}.

Definition review : CalendarEventEntry :=
  {| id_text := "http://www.google.com/calendar/feeds/default/private/full/xyz";
     title_text := Some "Standup review";
     recurrence := Some "RRULE:FREQ=MONTHLY";
     event_status_value := "CONFIRMED";
     original_event := None;
     link := edit_link "/full/xyz" |}.

(** Two singletons, one of them cancelled. *)
Definition lunch : CalendarEventEntry :=
  {| id_text := "http://www.google.com/calendar/feeds/default/private/full/lun";
     title_text := Some "Lunch";
     recurrence := None;
     event_status_value := "CONFIRMED";
     original_event := None;
     link := edit_link "/full/lun" |}.

Definition dentist : CalendarEventEntry :=
  {| id_text := "http://www.google.com/calendar/feeds/default/private/full/den";
     title_text := Some "Dentist";
     recurrence := None;
     event_status_value := "CANCELED";
     original_event := None;
     link := edit_link "/full/den" |}.

(** Expanded instances: two of [standup], one of another series, and one
    without a back-reference. *)
Definition instance (series : option string) (uri : string)
  : CalendarEventEntry :=
  {| id_text := "http://www.google.com/calendar/feeds/default/private" ++ uri;
     title_text := Some "Standup";
     recurrence := None;
     event_status_value := "CONFIRMED";
     original_event :=
       option_map (fun i => {| original_id := Some i |}) series;
     link := edit_link uri |}.

Definition store : Store :=
  {| calendars := [("Work", {| content_src :=
       "http://www.google.com/calendar/feeds/work%40group.calendar.google.com/private/full" |})];
     collapsed := [standup; lunch; dentist];
     expanded := [instance (Some "abc") "/full/abc_1";
                  instance (Some "xyz") "/full/xyz_1";
                  instance None "/full/solo";
                  instance (Some "abc") "/full/abc_2"];
     deleted := [] |}.

Definition world (input : list string) : World Store :=
  {| stdin := input; today := "2010-06-10"; remote := store |}.

Definition client (delete_prompt : bool) : CalendarServiceCL :=
  {| use_regex := false; prompt_for_tags := false;
     prompt_for_delete := delete_prompt |}.

End InMemory.

(** ** The remaining task and the vocabulary of the trace properties *)

Section ListToday.

Context {Remote : Type} {svc : Collaborators Remote}.

(** [(now + datetime.timedelta(days=1)).strftime(util.DATE_FORMAT)]: the
    formatted date of the day after the clock's. *)
Variable strftime_tomorrow : World Remote -> string.

(** [_run_list_today(client, options, args)], lines 263-268: [options.date]
    is overwritten with today and tomorrow joined by a comma, then the
    listing runs. *)
Definition _run_list_today (client : CalendarServiceCL) (options : Options)
    (args : list string) : M Remote unit :=
  fun w =>
    let now := today w in
    let tomorrow := strftime_tomorrow w in
    _run_list client
              {| opt_date := Some (now ++ "," ++ tomorrow)%string;
                 opt_title := opt_title options;
                 opt_query := opt_query options;
                 opt_cal := opt_cal options;
                 opt_delimiter := opt_delimiter options |}
              args w.

End ListToday.

(** No slash occurs in [s]. *)
Fixpoint no_slash (s : string) : bool :=
  match s with
  | EmptyString => true
  | String c r => negb (Ascii.eqb c "/") && no_slash r
  end.

(** [e] points back to the series with id [series]. *)
Definition refers_to (series : string) (e : CalendarEventEntry) : Prop :=
  exists o, original_event e = Some o /\ original_id o = Some series.

Section DeletesInTurn.

Context {Remote : Type} {svc : Collaborators Remote}.

(** The edit links on which a [Delete] request is sent when the entries of
    [l] are deleted in turn from the world [w]: entry after entry, up to
    the first entry without an edit link (excluded) or the first request
    that raises (included). *)
Fixpoint issued_deletes (l : list CalendarEventEntry) (w : World Remote)
  : list string :=
  match l with
  | [] => []
  | e :: rest =>
      match GetEditLink e with
      | None => []
      | Some a_link =>
          href a_link
          :: match gdata_Delete (href a_link) w with
             | (w1, inr _) => issued_deletes rest w1
             | (_, inl _) => []
             end
      end
  end.

(** Every entry of [l] has an edit link and the [Delete] requests on them,
    sent in turn from the world [w], all succeed. *)
Fixpoint all_deleted (l : list CalendarEventEntry) (w : World Remote) : Prop :=
  match l with
  | [] => True
  | e :: rest =>
      exists a_link w1,
        GetEditLink e = Some a_link /\
        gdata_Delete (href a_link) w = (w1, inr tt) /\
        all_deleted rest w1
  end.

End DeletesInTurn.

(** Every call of a computation, from every world, satisfies [P]. *)
Definition emits {Remote A : Type} (P : Call -> Prop) (m : M Remote A) : Prop :=
  forall w, Forall P (trace_of (m w)).

(** The arguments of the [util] bulk deletes of a trace, in order. *)
Fixpoint bulk_deletes (t : list Call)
  : list (list CalendarEventEntry * string * bool) :=
  match t with
  | [] => []
  | CUtilDelete entries entry_type delete_default :: r =>
      (entries, entry_type, delete_default) :: bulk_deletes r
  | _ :: r => bulk_deletes r
  end.

(** The event queries of a trace, in order. *)
Fixpoint queries (t : list Call) : list CalendarEventQuery :=
  match t with
  | [] => []
  | CGetEntries q _ :: r => q :: queries r
  | _ :: r => queries r
  end.

(** A call that is no bulk delete. *)
Definition not_bulk_delete (c : Call) : Prop :=
  match c with
  | CUtilDelete _ _ _ => False
  | _ => True
  end.

(** What [get_events] may call: the calendar lookup, the diagnostic, and
    an event query that carries the title, the text query when it is not
    empty, the cap and the expansion flag it was asked for, ordered by
    ascending start time. *)
Definition listing_call (title query calendar : option string)
    (max_results_ : Z) (expand_recurrence : bool) (c : Call) : Prop :=
  match c with
  | CGetSingleEntry uri name =>
      uri = "/calendar/feeds/default/allcalendars/full" /\
      name = Py.text calendar
  | CPrint line =>
      line = ("No calendar matching title " ++ Py.text calendar ++ ".")%string
  | CGetEntries q t =>
      t = title /\
      text_query q = (if Py.truthy query then query else None) /\
      orderby q = Some "starttime" /\ sortorder q = Some "ascend" /\
      max_results q = Some max_results_ /\
      singleevents q = (if expand_recurrence then Some "true" else None)
  | _ => False
  end.

(** What [quick_add_event] may call: the calendar lookup and the batch. *)
Definition quick_add_call (calendar : option string) (c : Call) : Prop :=
  match c with
  | CGetSingleEntry uri name =>
      uri = "/calendar/feeds/default/allcalendars/full" /\
      name = Py.text calendar
  | CExecuteBatch _ _ => True
  | _ => False
  end.

(** The prompt of line 94 for an event with the given title. *)
Definition selection_prompt (title : option string)
    (start_date end_date : string) : string :=
  "Delete " ++ dquote ++ Py.percent_s title ++ dquote ++ "?" ++ nl
  ++ prompt_str start_date end_date ++ nl.

(** An integer the prompt of [delete_events] asks again for. *)
Definition out_of_range (line : string) : Prop :=
  exists n, Py.int line = Some n /\ (n < 1 \/ n > 4)%Z.

(** Further fixtures of the in-memory service. *)

Module Fixtures.

(** A calendar whose feed has too few path segments. *)
Definition short_store : InMemory.Store :=
  {| InMemory.calendars := [("Scratch", {| content_src := "private/full" |})];
     InMemory.collapsed := [];
     InMemory.expanded := [];
     InMemory.deleted := [] |}.

Definition short_world : World InMemory.Store :=
  {| stdin := []; today := "2010-06-10"; remote := short_store |}.

Definition tomorrow (w : World InMemory.Store) : string := "2010-06-11".

(** Entries of a calendar the user may only read carry no edit link: a
    series, and an instance of the series [standup]. *)
Definition locked_series : CalendarEventEntry :=
  {| id_text := "http://www.google.com/calendar/feeds/default/private/full/lck";
     title_text := Some "Holidays";
     recurrence := Some "RRULE:FREQ=YEARLY";
     event_status_value := "CONFIRMED";
     original_event := None;
     link := [ {| rel := "self"; href := "/full/lck" |} ] |}.

Definition locked_instance : CalendarEventEntry :=
  {| id_text :=
       "http://www.google.com/calendar/feeds/default/private/full/abc_0";
     title_text := Some "Standup";
     recurrence := None;
     event_status_value := "CONFIRMED";
     original_event := Some {| original_id := Some "abc" |};
     link := [ {| rel := "self"; href := "/full/abc_0" |} ] |}.

Definition locked_store : InMemory.Store :=
  {| InMemory.calendars := [];
     InMemory.collapsed := [InMemory.standup];
     InMemory.expanded :=
       [locked_instance; InMemory.instance (Some "abc") "/full/abc_2"];
     InMemory.deleted := [] |}.

Definition locked_world (input : list string) : World InMemory.Store :=
  {| stdin := input; today := "2010-06-10"; remote := locked_store |}.

Definition options (cal : option string) : Options :=
  {| opt_date := Some "2010-06-01,2010-06-20";
     opt_title := Some "Standup";
     opt_query := None;
     opt_cal := cal;
     opt_delimiter := "," |}.

End Fixtures.

(** * Properties *)

(** ** [get_start_and_end] *)

Lemma partition_at_first_comma (a b : string) :
  no_comma a = true ->
  Py.partition "," (a ++ String "," b)%string = (a, ",", b).
Proof.
  induction a as [| c a IH]; simpl; intros H.
  - reflexivity.
  - apply andb_prop in H as [Hc Ha].
    apply negb_true_iff in Hc. rewrite Hc, (IH Ha). reflexivity.
Qed.

Lemma partition_without_comma (s : string) :
  no_comma s = true -> Py.partition "," s = (s, "", "").
Proof.
  induction s as [| c s IH]; simpl; intros H.
  - reflexivity.
  - apply andb_prop in H as [Hc Hs].
    apply negb_true_iff in Hc. rewrite Hc, (IH Hs). reflexivity.
Qed.

(** Any range with a comma that is not the lone comma is split at its
    first comma, and the end is a string, never [None]. *)
Lemma get_start_and_end_split (today a b : string) :
  no_comma a = true ->
  (a ++ String "," b)%string <> "," ->
  get_start_and_end today (Some (a ++ String "," b)%string) = (a, Some b).
Proof.
  intros Ha Hne. unfold get_start_and_end.
  assert (E1 : ((a ++ String "," b)%string =? "") = false)
    by (apply String.eqb_neq; destruct a; discriminate).
  assert (E2 : ((a ++ String "," b)%string =? ",") = false)
    by (apply String.eqb_neq; exact Hne).
  rewrite E1, E2. simpl. rewrite (partition_at_first_comma a b Ha).
  reflexivity.
Qed.

(** A single date is a start with an empty end. *)
Lemma get_start_and_end_single (today d : string) :
  d <> "" -> no_comma d = true ->
  get_start_and_end today (Some d) = (d, Some "").
Proof.
  intros Hd Hc. unfold get_start_and_end.
  assert (E1 : (d =? "") = false) by now apply String.eqb_neq.
  assert (E2 : (d =? ",") = false).
  { apply String.eqb_neq. intros ->. discriminate Hc. }
  rewrite E1, E2. simpl. now rewrite (partition_without_comma d Hc).
Qed.

(** C5: for the absent input and for the lone comma, [get_start_and_end]
    returns the same default pair: today's formatted date as start, and
    [None] as end. *)
Theorem get_start_and_end_default (today : string) :
  get_start_and_end today None = (today, None) /\
  get_start_and_end today (Some ",") = (today, None) /\
  get_start_and_end today (Some ",") = get_start_and_end today None.
Proof. repeat split. Qed.

(** C4 as stated fails: with only the start given, the end is the empty
    string that [partition] returns, not [None]. *)
Lemma get_start_and_end_trailing_comma_not_None :
  get_start_and_end "2010-06-10" (Some "2010-06-01,")
  <> ("2010-06-01", None).
Proof. discriminate. Qed.

(** C4, amended: for a date string with a comma and exactly one non-empty
    side, [get_start_and_end] returns the text before the comma as start
    and the text after it as end; the absent side is the empty string, not
    [None], and the query of [get_events] leaves that bound unset. *)
Theorem get_start_and_end_one_sided (today a b : string) :
  no_comma a = true ->
  (a = "" /\ b <> "") \/ (a <> "" /\ b = "") ->
  let range := get_start_and_end today (Some (a ++ String "," b)%string) in
  range = (a, Some b) /\
  (forall user_ query max_results_ expand,
     let q := event_query user_ query range max_results_ expand in
     start_min q = (if a =? "" then None else Some a) /\
     start_max q = (if b =? "" then None else Some b)) /\
  get_start_and_end today (Some "2010-06-01,") = ("2010-06-01", Some "") /\
  get_start_and_end today (Some ",2010-06-20") = ("", Some "2010-06-20").
Proof.
  intros Ha Hside. cbv zeta.
  assert (E : get_start_and_end today (Some (a ++ String "," b)%string)
              = (a, Some b)).
  { apply get_start_and_end_split; [exact Ha |].
    destruct Hside as [[-> Hb] | [Hna ->]]; simpl.
    - intros E. apply Hb. now inversion E.
    - destruct a as [| c a]; [congruence |]. simpl in *.
      apply andb_prop in Ha as [Hc _]. apply negb_true_iff in Hc.
      intros E. destruct a; discriminate. }
  rewrite E. split; [reflexivity |]. split; [| split; reflexivity].
  intros user_ query max_results_ expand. unfold event_query. simpl.
  split.
  - destruct (a =? ""); reflexivity.
  - destruct (b =? ""); reflexivity.
Qed.

Lemma get_start_and_end_one_sided_witness :
  get_start_and_end "2010-06-10" (Some "2010-06-01,") = ("2010-06-01", Some "")
  /\ get_start_and_end "2010-06-10" (Some ",2010-06-20")
     = ("", Some "2010-06-20").
Proof.
  split.
  - apply (get_start_and_end_one_sided "2010-06-10" "2010-06-01" "").
    + reflexivity.
    + right. split; [discriminate | reflexivity].
  - apply (get_start_and_end_one_sided "2010-06-10" "" "2010-06-20").
    + reflexivity.
    + left. split; [reflexivity | discriminate].
Defined.

(** ** The partition of [delete_events] *)

Lemma delete_lists_permutation (events : list CalendarEventEntry) :
  Permutation events
    (single_events_of events ++ recurring_events_of events
     ++ cancelled_singletons_of events).
Proof.
  unfold single_events_of, recurring_events_of, cancelled_singletons_of.
  induction events as [| e events IH]; simpl.
  - constructor.
  - destruct (recurrence e) as [rule |]; simpl.
    + apply Permutation_cons_app. exact IH.
    + destruct (event_status_value e =? "CANCELED"); simpl.
      * rewrite app_assoc. apply Permutation_cons_app.
        rewrite <- app_assoc. exact IH.
      * constructor. exact IH.
Qed.

(** C2 as stated fails: a cancelled event without a recurrence rule is in
    neither list, so the two lists do not cover the input, and two events
    that both lack a recurrence rule are treated differently. *)
Lemma cancelled_singleton_in_neither_list :
  let events := [InMemory.lunch; InMemory.dentist] in
  In InMemory.dentist events /\
  ~ In InMemory.dentist (single_events_of events) /\
  ~ In InMemory.dentist (recurring_events_of events) /\
  recurrence InMemory.dentist = recurrence InMemory.lunch /\
  In InMemory.lunch (single_events_of events).
Proof.
  cbv zeta. repeat split.
  - right; left; reflexivity.
  - vm_compute. intros [H | []]. discriminate H.
  - vm_compute. intros [].
  - left; reflexivity.
Qed.

(** C2, amended: the two lists are disjoint; [recurring] holds exactly the
    events with a recurrence rule; [singletons] holds exactly the events
    with no recurrence rule whose status is not ['CANCELED']; together
    with the cancelled events without a rule they are the whole input. *)
Theorem delete_events_partition (events : list CalendarEventEntry) :
  (forall e, In e (recurring_events_of events) <->
             In e events /\ recurrence e <> None) /\
  (forall e, In e (single_events_of events) <->
             In e events /\ recurrence e = None /\
             event_status_value e <> "CANCELED") /\
  (forall e, ~ (In e (single_events_of events) /\
                In e (recurring_events_of events))) /\
  Permutation events
    (single_events_of events ++ recurring_events_of events
     ++ cancelled_singletons_of events).
Proof.
  assert (R : forall e, In e (recurring_events_of events) <->
                        In e events /\ recurrence e <> None).
  { intros e. unfold recurring_events_of. rewrite filter_In.
    destruct (recurrence e); simpl; split; intros [H1 H2]; split;
      auto; congruence. }
  assert (S : forall e, In e (single_events_of events) <->
                        In e events /\ recurrence e = None /\
                        event_status_value e <> "CANCELED").
  { intros e. unfold single_events_of. rewrite filter_In.
    rewrite andb_true_iff, !negb_true_iff, String.eqb_neq.
    destruct (recurrence e); simpl; intuition congruence. }
  split; [exact R |]. split; [exact S |]. split.
  - intros e [H1 H2]. apply S in H1. apply R in H2. intuition congruence.
  - apply delete_lists_permutation.
Qed.

(** [l[-1]] of a non-empty list is its last element; [split] is never
    empty, so [s.split('/')[-1]] is [last (Py.split "/" s) ""]. *)
Lemma split_not_nil (sep : ascii) (s : string) : Py.split sep s <> [].
Proof.
  induction s as [| c s IH]; simpl; [discriminate |].
  destruct (Ascii.eqb c sep); [discriminate |].
  destruct (Py.split sep s); [contradiction | discriminate].
Qed.

Lemma from_end_1_last {A : Type} (l : list A) (d : A) :
  l <> [] -> Py.from_end l 1 = Some (last l d).
Proof.
  intros H. destruct (exists_last H) as (l' & a & ->).
  unfold Py.from_end. rewrite rev_app_distr, last_last. reflexivity.
Qed.

Lemma split_last_segment (s : string) :
  Py.from_end (Py.split "/" s) 1 = Some (last (Py.split "/" s) "").
Proof. apply from_end_1_last, split_not_nil. Qed.

Lemma in_firstn_in {A : Type} (k : nat) (l : list A) (x : A) :
  In x (firstn k l) -> In x l.
Proof.
  intros H. rewrite <- (firstn_skipn k l). apply in_or_app. now left.
Qed.

(** ** The client against any collaborators *)

Section ClientProperties.

Context {Remote : Type} {svc : Collaborators Remote}.

(** *** Equations of the runs *)

Lemma for_each_cons {A : Type} (x : A) (l : list A) (f : A -> M Remote unit) w :
  for_each (x :: l) f w
  = match f x w with
    | (t1, w1, inl e) => (t1, w1, inl e)
    | (t1, w1, inr _) =>
        match for_each l f w1 with
        | (t2, w2, r) => (t1 ++ t2, w2, r)
        end
    end.
Proof. reflexivity. Qed.

Lemma delete_by_edit_link_run (entry : CalendarEventEntry) w :
  delete_by_edit_link entry w
  = match GetEditLink entry with
    | None => ([], w, inl Py.AttributeError)
    | Some a_link =>
        match gdata_Delete (href a_link) w with
        | (w1, r) => ([CGDataDelete (href a_link)], w1, r)
        end
    end.
Proof.
  unfold delete_by_edit_link, bind, need, call, ret, raise.
  destruct (GetEditLink entry) as [a_link |]; [| reflexivity].
  destruct (gdata_Delete (href a_link) w) as [w1 r]. reflexivity.
Qed.

Lemma _batch_delete_recur_run self date event calendar w :
  _batch_delete_recur self date event calendar w
  = match get_events self date (title_text event) None calendar 100 true w with
    | (t1, w1, inl e) => (t1, w1, inl e)
    | (t1, w1, inr None) => (t1, w1, inl Py.TypeError)
    | (t1, w1, inr (Some single_events)) =>
        match for_each (filter (instance_of event) single_events)
                       delete_by_edit_link w1 with
        | (t2, w2, r) => (t1 ++ t2, w2, r)
        end
    end.
Proof.
  unfold _batch_delete_recur, bind.
  destruct (get_events self date (title_text event) None calendar 100 true w)
    as [[t1 w1] [e | [l |]]]; simpl.
  - reflexivity.
  - destruct (for_each (filter (instance_of event) l) delete_by_edit_link w1)
      as [[t2 w2] r]. reflexivity.
  - now rewrite app_nil_r.
Qed.

Lemma delete_events_run self events date calendar w :
  delete_events self (Some events) date calendar w
  = let configured := CConfigGetBoolean "GENERAL" "delete_by_default" in
    match config_getboolean "GENERAL" "delete_by_default" w with
    | (w1, inl e) => ([configured], w1, inl e)
    | (w1, inr delete_default) =>
        let bulk := CUtilDelete (single_events_of events) "event"
                                delete_default in
        match util_Delete self (single_events_of events) "event"
                          delete_default w1 with
        | (w2, inl e) => ([configured; bulk], w2, inl e)
        | (w2, inr _) =>
            let dates := prompt_dates (get_start_and_end (today w2) date) in
            match for_each (recurring_events_of events)
                           (delete_recurring self date (fst dates) (snd dates)
                                             calendar) w2 with
            | (t, w3, r) => (configured :: bulk :: t, w3, r)
            end
        end
    end.
Proof.
  unfold delete_events, bind, need, call, ret, clock_today. cbv zeta.
  destruct (config_getboolean "GENERAL" "delete_by_default" w)
    as [w1 [e | delete_default]]; [reflexivity |].
  destruct (util_Delete self (single_events_of events) "event"
                        delete_default w1) as [w2 [e | u]]; [reflexivity |].
  destruct (prompt_dates (get_start_and_end (today w2) date))
    as [start_date end_date]. simpl.
  destruct (for_each (recurring_events_of events)
                     (delete_recurring self date start_date end_date calendar)
                     w2) as [[t w3] r].
  reflexivity.
Qed.

Lemma instance_of_true (event e : CalendarEventEntry) :
  instance_of event e = true ->
  exists o, original_event e = Some o /\
            original_id o = Some (last (Py.split "/" (id_text event)) "").
Proof.
  unfold instance_of. destruct (original_event e) as [o |]; [| discriminate].
  destruct (original_id o) as [i |] eqn:Ei; [| discriminate].
  intros H. apply String.eqb_eq in H. subst i. now exists o.
Qed.

(** *** Listing *)

Lemma fetch_events_run self user_ date title query max_results_ expand w :
  fetch_events self user_ date title query max_results_ expand w
  = let q := event_query user_ query (get_start_and_end (today w) date)
                         max_results_ expand in
    match util_GetEntries self q title w with
    | (w1, inl e) => ([CGetEntries q title], w1, inl e)
    | (w1, inr entries) => ([CGetEntries q title], w1, inr (Some entries))
    end.
Proof.
  unfold fetch_events, bind, clock_today, call, ret. cbv zeta.
  destruct (util_GetEntries self _ title w) as [w1 [e | entries]];
    reflexivity.
Qed.

Lemma fetch_events_trace self user_ date title query max_results_ expand w :
  trace_of (fetch_events self user_ date title query max_results_ expand w)
  = [CGetEntries (event_query user_ query (get_start_and_end (today w) date)
                              max_results_ expand) title].
Proof.
  rewrite fetch_events_run. cbv zeta.
  destruct (util_GetEntries self _ title w) as [w1 [e | entries]];
    reflexivity.
Qed.

(** An unresolvable calendar name: [get_events] prints the diagnostic and
    returns [None]. *)
Lemma get_events_unresolved self date title query calendar max_results_
    expand w w1 :
  Py.truthy calendar = true ->
  util_GetSingleEntry self "/calendar/feeds/default/allcalendars/full"
                      (Py.text calendar) w = (w1, inr None) ->
  get_events self date title query calendar max_results_ expand w
  = ([CGetSingleEntry "/calendar/feeds/default/allcalendars/full"
                      (Py.text calendar);
      CPrint ("No calendar matching title " ++ Py.text calendar ++ ".")],
     w1, inr None).
Proof.
  intros Hc Hq. unfold get_events. rewrite Hc.
  unfold bind, get_calendar, call. rewrite Hq. reflexivity.
Qed.

(** An unresolvable calendar name: [quick_add_event] returns [None] and
    sends no batch. *)
Lemma quick_add_event_unresolved self quick_add_strings calendar w w1 :
  Py.truthy calendar = true ->
  util_GetSingleEntry self "/calendar/feeds/default/allcalendars/full"
                      (Py.text calendar) w = (w1, inr None) ->
  quick_add_event self quick_add_strings calendar w
  = ([CGetSingleEntry "/calendar/feeds/default/allcalendars/full"
                      (Py.text calendar)], w1, inr None).
Proof.
  intros Hc Hq. unfold quick_add_event. rewrite Hc.
  unfold bind, get_calendar, call. rewrite Hq. reflexivity.
Qed.

(** C8: listing with date ['2010-06-01,2010-06-20'], no calendar and
    recurrences expanded sends one query, for user ['default'], with
    start_min 2010-06-01, start_max 2010-06-20, singleevents true, orderby
    starttime and sortorder ascend; it carries the text query when one
    is given and the result cap. *)
Theorem get_events_range_query
    (self : CalendarServiceCL) (title query : option string)
    (max_results_ : Z) (w : World Remote) :
  trace_of (get_events self (Some "2010-06-01,2010-06-20") title query None
                       max_results_ true w)
  = [CGetEntries {| user := "default";
                    text_query := if Py.truthy query then query else None;
                    start_min := Some "2010-06-01";
                    start_max := Some "2010-06-20";
                    singleevents := Some "true";
                    orderby := Some "starttime";
                    sortorder := Some "ascend";
                    max_results := Some max_results_ |} title].
Proof.
  unfold get_events. simpl. rewrite fetch_events_trace. reflexivity.
Qed.

(** *** Quick add *)

Lemma execute_quick_add_trace quick_add_strings cal_uri w :
  trace_of (execute_quick_add quick_add_strings cal_uri w)
  = [CExecuteBatch (quick_add_feed quick_add_strings) (cal_uri ++ "/batch")].
Proof.
  unfold execute_quick_add, bind, call, ret. cbv zeta.
  destruct (gdata_ExecuteBatch _ _ w) as [w1 [e | entry]]; reflexivity.
Qed.

Lemma quick_add_loop (l : list (nat * string)) (request_feed : list InsertRequest) :
  fold_left
    (fun request_feed '(i, event_str) =>
       AddInsert request_feed event_str "true"
                 ("insert-request" ++ Py.str_of_nat i)) l request_feed
  = request_feed ++ map (fun p => insert_item (fst p) (snd p)) l.
Proof.
  revert request_feed.
  induction l as [| [i event_str] l IH]; intros request_feed; simpl.
  - now rewrite app_nil_r.
  - rewrite IH. unfold AddInsert. rewrite <- app_assoc. reflexivity.
Qed.

Lemma quick_add_feed_items (quick_add_strings : list string) :
  quick_add_feed quick_add_strings
  = map (fun p => insert_item (fst p) (snd p)) (Py.enumerate quick_add_strings).
Proof. unfold quick_add_feed. now rewrite quick_add_loop. Qed.

Lemma items_from (l : list string) :
  forall start,
    let items := map (fun p => insert_item (fst p) (snd p))
                     (combine (seq start (length l)) l) in
    length items = length l /\
    (forall i s, nth_error l i = Some s ->
                 nth_error items i = Some (insert_item (start + i) s)) /\
    map batch_id items
    = map (fun i => ("insert-request" ++ Py.str_of_nat i)%string)
          (seq start (length l)).
Proof.
  induction l as [| x l IH]; intros start; cbv zeta; simpl.
  - split; [reflexivity |]. split; [| reflexivity].
    intros [| i] s H; discriminate H.
  - destruct (IH (S start)) as (Hlen & Hnth & Hids).
    split; [now rewrite Hlen |]. split.
    + intros [| i] s H; simpl in *.
      * injection H as ->. now rewrite Nat.add_0_r.
      * rewrite (Hnth i s H). f_equal. f_equal. lia.
    + now rewrite Hids.
Qed.

Lemma str_of_nat_inj (i j : nat) :
  Py.str_of_nat i = Py.str_of_nat j -> i = j.
Proof.
  unfold Py.str_of_nat. intros H.
  apply DecimalNat.Unsigned.to_uint_inj.
  apply (f_equal DecimalString.NilEmpty.uint_of_string) in H.
  rewrite !DecimalString.NilEmpty.usu in H. now injection H.
Qed.

Lemma batch_ids_distinct (start len : nat) :
  NoDup (map (fun i => ("insert-request" ++ Py.str_of_nat i)%string)
             (seq start len)).
Proof.
  apply Finite.Injective_map_NoDup; [| apply seq_NoDup].
  intros i j H. simpl in H. injection H as H. now apply str_of_nat_inj.
Qed.

(** C7: once the target calendar is settled (no name given, or the name
    resolved to [c]), [quick_add_event] sends exactly one batch; its feed
    has one insertion item per input string, in input order, the i-th
    with the string as content, [quick_add] ['true'] and the batch id
    ['insert-request'] followed by [i]; the ids are pairwise distinct. *)
Theorem quick_add_event_one_batch
    (self : CalendarServiceCL) (quick_add_strings : list string)
    (calendar : option string) (w : World Remote) :
  let run := quick_add_event self quick_add_strings calendar w in
  let feed := quick_add_feed quick_add_strings in
  let lookup := CGetSingleEntry "/calendar/feeds/default/allcalendars/full"
                                (Py.text calendar) in
  (Py.truthy calendar = false ->
   trace_of run
   = [CExecuteBatch feed "/calendar/feeds/default/private/full/batch"]) /\
  (forall c,
     Py.truthy calendar = true ->
     result_of (get_calendar self (Py.text calendar) w) = inr (Some c) ->
     trace_of run = [lookup; CExecuteBatch feed (content_src c ++ "/batch")]) /\
  length feed = length quick_add_strings /\
  (forall i event_str,
     nth_error quick_add_strings i = Some event_str ->
     nth_error feed i
     = Some {| content_text := event_str;
               quick_add_value := "true";
               batch_id := "insert-request" ++ Py.str_of_nat i |}) /\
  NoDup (map batch_id feed).
Proof.
  cbv zeta.
  destruct (items_from quick_add_strings 0) as (Hlen & Hnth & Hids).
  rewrite quick_add_feed_items. unfold Py.enumerate.
  split; [| split; [| split; [exact Hlen | split]]].
  - intros Hc. unfold quick_add_event. rewrite Hc.
    rewrite execute_quick_add_trace, quick_add_feed_items. reflexivity.
  - intros c Hc Hr. unfold quick_add_event. rewrite Hc.
    unfold bind, get_calendar, call, result_of in *.
    destruct (util_GetSingleEntry self _ (Py.text calendar) w)
      as [w1 r]. simpl in Hr. subst r.
    pose proof (execute_quick_add_trace quick_add_strings (content_src c) w1)
      as Ht.
    destruct (execute_quick_add quick_add_strings (content_src c) w1)
      as [[t2 w2] r2].
    unfold trace_of in *. simpl in *. rewrite Ht, quick_add_feed_items.
    reflexivity.
  - intros i event_str H. exact (Hnth i event_str H).
  - rewrite Hids. apply batch_ids_distinct.
Qed.

(** *** The empty calendar name *)

(** C10: the empty calendar name behaves as the absent one: [get_events]
    queries user ['default'], [quick_add_event] posts to the feed of the
    primary calendar, and neither looks the name up, so neither can take
    the unresolvable-calendar path. *)
Theorem empty_calendar_name_is_primary
    (self : CalendarServiceCL) (date title query : option string)
    (max_results_ : Z) (expand_recurrence : bool)
    (quick_add_strings : list string) (w : World Remote) :
  let listed := get_events self date title query (Some "") max_results_
                           expand_recurrence w in
  let added := quick_add_event self quick_add_strings (Some "") w in
  let q := event_query "default" query (get_start_and_end (today w) date)
                       max_results_ expand_recurrence in
  listed = get_events self date title query None max_results_
                      expand_recurrence w /\
  added = quick_add_event self quick_add_strings None w /\
  trace_of listed = [CGetEntries q title] /\
  user q = "default" /\
  trace_of added
  = [CExecuteBatch (quick_add_feed quick_add_strings)
                   "/calendar/feeds/default/private/full/batch"].
Proof.
  cbv zeta. split; [reflexivity |]. split; [reflexivity |].
  split; [| split].
  - unfold get_events. simpl. apply fetch_events_trace.
  - unfold event_query.
    destruct (get_start_and_end (today w) date). reflexivity.
  - unfold quick_add_event. simpl. apply execute_quick_add_trace.
Qed.

(** *** The prompt *)

Lemma ask_selection_run prompt w :
  ask_selection prompt w
  = match read_selection prompt (stdin w) with
    | (t, unread, r) =>
        (t, Build_World Remote unread (today w) (remote w), r)
    end.
Proof. reflexivity. Qed.

(** Choice 1 of the prompt runs the instance deletion with the original
    [date]. *)
Lemma delete_recurring_range self date start_date end_date calendar event
    w t unread :
  prompt_for_delete self = true ->
  read_selection
    ("Delete " ++ dquote ++ Py.percent_s (title_text event) ++ dquote ++ "?"
     ++ nl ++ prompt_str start_date end_date ++ nl) (stdin w)
  = (t, unread, inr 1%Z) ->
  delete_recurring self date start_date end_date calendar event w
  = match _batch_delete_recur self date event calendar
            (Build_World Remote unread (today w) (remote w)) with
    | (t2, w2, r) => (t ++ t2, w2, r)
    end.
Proof.
  intros Hp Hs. unfold delete_recurring. rewrite Hp.
  unfold bind. rewrite ask_selection_run, Hs. reflexivity.
Qed.

(** Choice 3 of the prompt runs the instance deletion with [start_date]. *)
Lemma delete_recurring_following self date start_date end_date calendar event
    w t unread :
  prompt_for_delete self = true ->
  read_selection
    ("Delete " ++ dquote ++ Py.percent_s (title_text event) ++ dquote ++ "?"
     ++ nl ++ prompt_str start_date end_date ++ nl) (stdin w)
  = (t, unread, inr 3%Z) ->
  delete_recurring self date start_date end_date calendar event w
  = match _batch_delete_recur self (Some start_date) event calendar
            (Build_World Remote unread (today w) (remote w)) with
    | (t2, w2, r) => (t ++ t2, w2, r)
    end.
Proof.
  intros Hp Hs. unfold delete_recurring. rewrite Hp.
  unfold bind. rewrite ask_selection_run, Hs. reflexivity.
Qed.

End ClientProperties.

(** ** Runs against the in-memory service *)

Example str_of_nat_examples :
  Py.str_of_nat 0 = "0" /\ Py.str_of_nat 7 = "7" /\ Py.str_of_nat 12 = "12".
Proof. repeat split. Qed.

Example int_examples :
  Py.int " 3 " = Some 3%Z /\ Py.int "-12" = Some (-12)%Z /\
  Py.int "+4" = Some 4%Z /\ Py.int "three" = None /\ Py.int "" = None /\
  Py.int "4x" = None.
Proof. repeat split. Qed.

Example split_examples :
  Py.split "/" "a/b/c" = ["a"; "b"; "c"] /\
  Py.split "/" "a//b/" = ["a"; ""; "b"; ""] /\
  Py.split "/" "" = [""] /\
  Py.from_end (Py.split "/" "http://host/feeds/me%40x/private/full") 3
  = Some "me%40x" /\
  Py.from_end (Py.split "/" "private/full") 3 = None /\
  Py.partition "," "a,b,c" = ("a", ",", "b,c").
Proof. repeat split. Qed.

Example unquote_examples :
  Py.unquote "work%40group.calendar.google.com"
  = "work@group.calendar.google.com" /\
  Py.unquote "a%2Fb%2fc" = "a/b/c" /\
  Py.unquote "100%" = "100%" /\
  Py.unquote "%zz%4" = "%zz%4" /\
  Py.unquote "%%41" = "%A" /\
  Py.unquote "%2541" = "%41".
Proof. repeat split. Qed.

Example get_start_and_end_examples :
  get_start_and_end "2010-06-10" (Some "2010-06-01,2010-06-20")
  = ("2010-06-01", Some "2010-06-20") /\
  get_start_and_end "2010-06-10" (Some "2010-06-05")
  = ("2010-06-05", Some "") /\
  get_start_and_end "2010-06-10" (Some "") = ("2010-06-10", None).
Proof. repeat split. Qed.

(** Choice 1 on the series [standup]: the two instances that point back
    to it are deleted, the instance of another series and the one without
    a back-reference are not. *)
Example delete_choice_1_run :
  trace_of (delete_events (InMemory.client true) (Some [InMemory.standup])
              (Some "2010-06-01,2010-06-20") None (InMemory.world ["9"; "1"]))
  = let ask := CRawInput ("Delete " ++ dquote ++ "Standup" ++ dquote ++ "?"
                          ++ nl ++ prompt_str "2010-06-01" "2010-06-20" ++ nl) in
    [CConfigGetBoolean "GENERAL" "delete_by_default";
     CUtilDelete [] "event" true;
     ask; ask;
     CGetEntries (event_query "default" None
                              ("2010-06-01", Some "2010-06-20") 100 true)
                 (Some "Standup");
     CGDataDelete "/full/abc_1/edit";
     CGDataDelete "/full/abc_2/edit"].
Proof. vm_compute. reflexivity. Qed.

(** Without the prompt: one bulk delete for the live singleton, then one
    [Delete] per series. *)
Example delete_without_prompt_run :
  delete_events (InMemory.client false)
    (Some [InMemory.standup; InMemory.lunch; InMemory.dentist; InMemory.review])
    (Some "2010-06-01,2010-06-20") None (InMemory.world [])
  = ([CConfigGetBoolean "GENERAL" "delete_by_default";
      CUtilDelete [InMemory.lunch] "event" true;
      CGDataDelete "/full/abc/edit";
      CGDataDelete "/full/xyz/edit"],
     InMemory.mark_deleted "/full/xyz/edit"
       (InMemory.mark_deleted "/full/abc/edit" (InMemory.world [])),
     inr tt).
Proof. vm_compute. reflexivity. Qed.

(** Three quick-add strings for a named calendar: one lookup, one batch. *)
Example quick_add_run :
  trace_of (quick_add_event (InMemory.client true)
              ["Lunch with Tony on Tuesday at 12:00"; "Dentist Friday 9am";
               "Standup every Monday 10:00"]
              (Some "Work") (InMemory.world []))
  = [CGetSingleEntry "/calendar/feeds/default/allcalendars/full" "Work";
     CExecuteBatch
       [insert_item 0 "Lunch with Tony on Tuesday at 12:00";
        insert_item 1 "Dentist Friday 9am";
        insert_item 2 "Standup every Monday 10:00"]
       "http://www.google.com/calendar/feeds/work%40group.calendar.google.com/private/full/batch"].
Proof. vm_compute. reflexivity. Qed.

(** C1 at a failing input: the range is 2010-06-01 to 2010-06-20, the
    prompt offers [3) All events following 2010-06-20], and on choice 3
    the instances are re-queried from 2010-06-01, the start of the range,
    with no upper bound; no query anchored at 2010-06-20 is sent. *)
Theorem delete_choice_3_requeries_from_range_start :
  let date := Some "2010-06-01,2010-06-20" in
  let w := InMemory.world ["3"] in
  let run := delete_events (InMemory.client true) (Some [InMemory.standup])
                           date None w in
  let requery (anchor : string) :=
    CGetEntries (event_query "default" None
                             (get_start_and_end (today w) (Some anchor))
                             100 true) (Some "Standup") in
  get_start_and_end (today w) date = ("2010-06-01", Some "2010-06-20") /\
  trace_of run
  = [CConfigGetBoolean "GENERAL" "delete_by_default";
     CUtilDelete [] "event" true;
     CRawInput ("Delete " ++ dquote ++ "Standup" ++ dquote ++ "?" ++ nl
                ++ "1) Instances between 2010-06-01 and 2010-06-20" ++ nl
                ++ "2) All events in this series" ++ nl
                ++ "3) All events following 2010-06-20" ++ nl
                ++ "4) Do not delete" ++ nl);
     requery "2010-06-01";
     CGDataDelete "/full/abc_1/edit";
     CGDataDelete "/full/abc_2/edit"] /\
  start_min (event_query "default" None
               (get_start_and_end (today w) (Some "2010-06-01")) 100 true)
  = Some "2010-06-01" /\
  ~ In (requery "2010-06-20") (trace_of run).
Proof.
  cbv zeta. split; [reflexivity |]. split; [vm_compute; reflexivity |].
  split; [reflexivity |].
  vm_compute. intros H.
  repeat (destruct H as [H | H]; [discriminate H |]). exact H.
Qed.

(** C3 at a failing input: no calendar is named [Nope]; [get_events]
    prints the diagnostic and returns [None], not the empty list, and the
    [list] and [delete] tasks then raise [TypeError] when they iterate it.
    [quick_add_event] returns [None] and sends no batch. *)
Theorem get_events_unresolved_returns_None :
  let w := InMemory.world [] in
  let client := InMemory.client true in
  let options := {| opt_date := None; opt_title := None; opt_query := None;
                    opt_cal := Some "Nope"; opt_delimiter := "," |} in
  let run := get_events client None None None (Some "Nope") 100 true w in
  let lookup :=
    CGetSingleEntry "/calendar/feeds/default/allcalendars/full" "Nope" in
  result_of (get_calendar client "Nope" w) = inr None /\
  trace_of run = [lookup; CPrint "No calendar matching title Nope."] /\
  result_of run = inr None /\
  result_of run <> inr (Some []) /\
  result_of (_run_list client options [] w) = inl Py.TypeError /\
  result_of (_run_delete client options [] w) = inl Py.TypeError /\
  quick_add_event client ["Lunch with Tony on Tuesday at 12:00"] (Some "Nope") w
  = ([lookup], w, inr None).
Proof.
  cbv zeta. repeat split. vm_compute. discriminate.
Qed.

(** * Further properties *)

(** ** The date range keeps the text of the date *)

Lemma partition_parts (s : string) :
  forall a f b,
    Py.partition "," s = (a, f, b) ->
    no_comma a = true /\ s = (a ++ f ++ b)%string /\
    (f = "," \/ (f = "" /\ b = "")).
Proof.
  induction s as [| c s IH]; simpl; intros a f b H.
  - injection H as <- <- <-. auto.
  - destruct (Ascii.eqb c ",") eqn:Ec.
    + injection H as <- <- <-. apply Ascii.eqb_eq in Ec. subst c. auto.
    + destruct (Py.partition "," s) as [[a' f'] b'].
      injection H as <- <- <-.
      destruct (IH a' f' b' eq_refl) as (Hn & Hs & Hf).
      simpl. rewrite Ec, Hn, <- Hs. auto.
Qed.

(** For every date other than the empty string and the lone comma, the
    start holds no comma and start and end are the text of the date around
    its first comma; a date without a comma is the start, with an empty
    end. *)
Theorem get_start_and_end_keeps_text (today d : string) :
  d <> "" -> d <> "," ->
  exists start end_,
    get_start_and_end today (Some d) = (start, Some end_) /\
    no_comma start = true /\
    (d = (start ++ "," ++ end_)%string \/ (d = start /\ end_ = "")).
Proof.
  intros H1 H2. unfold get_start_and_end.
  apply String.eqb_neq in H1. apply String.eqb_neq in H2.
  rewrite H1, H2. simpl.
  destruct (Py.partition "," d) as [[a f] b] eqn:Ep.
  destruct (partition_parts d a f b Ep) as (Hn & Hs & [-> | [-> ->]]).
  - exists a, b. auto.
  - exists a, "". split; [reflexivity |]. split; [exact Hn |]. right.
    split; [| reflexivity]. rewrite Hs. simpl.
    clear. induction a as [| c a IH]; simpl; [reflexivity | now rewrite IH].
Qed.

Lemma get_start_and_end_keeps_text_witness :
  exists start end_,
    get_start_and_end "2010-06-10" (Some "2010-06-01,2010-06-20,x")
    = (start, Some end_) /\
    no_comma start = true /\
    ("2010-06-01,2010-06-20,x" = (start ++ "," ++ end_)%string \/
     ("2010-06-01,2010-06-20,x" = start /\ end_ = "")).
Proof.
  apply (get_start_and_end_keeps_text "2010-06-10" "2010-06-01,2010-06-20,x");
    discriminate.
Defined.

(** The end is [None] exactly for the absent date, the empty string and
    the lone comma, and the start is then today's date. *)
Theorem get_start_and_end_open_end (today : string) (date : option string) :
  (snd (get_start_and_end today date) = None <->
   date = None \/ date = Some "" \/ date = Some ",") /\
  (date = None \/ date = Some "" \/ date = Some "," <->
   get_start_and_end today date = (today, None)).
Proof.
  assert (K : date = None \/ date = Some "" \/ date = Some "," ->
              get_start_and_end today date = (today, None)).
  { intros [-> | [-> | ->]]; reflexivity. }
  assert (L : snd (get_start_and_end today date) = None ->
              date = None \/ date = Some "" \/ date = Some ",").
  { destruct date as [d |]; [| auto]. unfold get_start_and_end.
    destruct (d =? "") eqn:E1; simpl.
    - apply String.eqb_eq in E1. subst d. auto.
    - destruct (d =? ",") eqn:E2; simpl.
      + apply String.eqb_eq in E2. subst d. auto.
      + destruct (Py.partition "," d) as [[a f] b]. discriminate. }
  split; split.
  - exact L.
  - intros H. now rewrite (K H).
  - exact K.
  - intros H. apply L. now rewrite H.
Qed.

(** ** The prompt loop *)

Lemma out_of_range_test (line : string) (n : Z) :
  Py.int line = Some n -> (n < 1 \/ n > 4)%Z ->
  ((n <? 1)%Z || (n >? 4)%Z) = true.
Proof.
  intros _ [H | H]; apply orb_true_iff.
  - left. now apply Z.ltb_lt.
  - right. apply Z.gtb_lt. lia.
Qed.

Lemma in_range_test (n : Z) :
  (1 <= n <= 4)%Z <-> ((n <? 1)%Z || (n >? 4)%Z) = false.
Proof.
  rewrite orb_false_iff, Z.ltb_ge, Z.gtb_ltb, Z.ltb_ge. lia.
Qed.

(** When the input holds out-of-range integers and then an integer from 1
    to 4, the loop asks once per line read, returns that integer and
    leaves the lines after it unread. *)
Theorem read_selection_accepts (prompt : string)
    (skipped : list string) (line : string) (unread : list string) (n : Z) :
  Forall out_of_range skipped ->
  Py.int line = Some n -> (1 <= n <= 4)%Z ->
  read_selection prompt (skipped ++ line :: unread)
  = (repeat (CRawInput prompt) (S (length skipped)), unread, inr n).
Proof.
  intros Hs Hl Hn. induction Hs as [| x skipped (m & Hm & Hr) _ IH]; simpl.
  - rewrite Hl. apply in_range_test in Hn. now rewrite Hn.
  - rewrite Hm, (out_of_range_test x m Hm Hr), IH. reflexivity.
Qed.

Lemma read_selection_accepts_witness :
  read_selection "Delete?" ["0"; " 9 "; "3"; "1"]
  = (repeat (CRawInput "Delete?") 3, ["1"], inr 3%Z).
Proof.
  apply (read_selection_accepts "Delete?" ["0"; " 9 "] "3" ["1"] 3%Z).
  - repeat constructor.
    + exists 0%Z. split; [reflexivity | lia].
    + exists 9%Z. split; [reflexivity | lia].
  - reflexivity.
  - lia.
Defined.

(** Whatever the loop returns is an integer from 1 to 4, read from a line
    that follows only out-of-range integers. *)
Theorem read_selection_sound (prompt : string) (lines : list string)
    (t : list Call) (unread : list string) (n : Z) :
  read_selection prompt lines = (t, unread, inr n) ->
  (1 <= n <= 4)%Z /\
  exists skipped line,
    lines = skipped ++ line :: unread /\
    Py.int line = Some n /\
    Forall out_of_range skipped /\
    t = repeat (CRawInput prompt) (S (length skipped)).
Proof.
  revert t. induction lines as [| x lines IH]; simpl; intros t H.
  - discriminate.
  - destruct (Py.int x) as [m |] eqn:Hm; [| discriminate].
    destruct ((m <? 1)%Z || (m >? 4)%Z) eqn:Hr.
    + destruct (read_selection prompt lines) as [[t' u'] r'].
      injection H as <- <- ->.
      destruct (IH t' eq_refl) as (Hn & skipped & line & -> & Hl & Hs & ->).
      split; [exact Hn |]. exists (x :: skipped), line.
      split; [reflexivity |]. split; [exact Hl |]. split; [| reflexivity].
      constructor; [| exact Hs]. exists m. split; [exact Hm |].
      apply orb_true_iff in Hr as [Hr | Hr].
      * left. now apply Z.ltb_lt.
      * right. apply Z.gtb_lt in Hr. lia.
    + injection H as <- <- <-. split; [now apply in_range_test |].
      exists [], x. auto.
Qed.

Lemma read_selection_sound_witness :
  (1 <= 2 <= 4)%Z /\
  exists skipped line,
    ["5"; "2"; "4"] = skipped ++ line :: ["4"] /\
    Py.int line = Some 2%Z /\
    Forall out_of_range skipped /\
    [CRawInput "?"; CRawInput "?"]
    = repeat (CRawInput "?") (S (length skipped)).
Proof.
  apply (read_selection_sound "?" ["5"; "2"; "4"]
           [CRawInput "?"; CRawInput "?"] ["4"] 2%Z).
  reflexivity.
Defined.

(** A line that is not an integer ends the loop with [ValueError]: the
    out-of-range integers before it were asked again, the lines after it
    stay unread. *)
Theorem read_selection_rejects_non_integer (prompt : string)
    (skipped : list string) (bad : string) (unread : list string) :
  Forall out_of_range skipped ->
  Py.int bad = None ->
  read_selection prompt (skipped ++ bad :: unread)
  = (repeat (CRawInput prompt) (S (length skipped)), unread,
     inl Py.ValueError).
Proof.
  intros Hs Hb. induction Hs as [| x skipped (m & Hm & Hr) _ IH]; simpl.
  - now rewrite Hb.
  - rewrite Hm, (out_of_range_test x m Hm Hr), IH. reflexivity.
Qed.

Lemma read_selection_rejects_non_integer_witness :
  read_selection "?" ["7"; "yes"; "2"]
  = (repeat (CRawInput "?") 2, ["2"], inl Py.ValueError).
Proof.
  apply (read_selection_rejects_non_integer "?" ["7"] "yes" ["2"]).
  - repeat constructor. exists 7%Z. split; [reflexivity | lia].
  - reflexivity.
Defined.

(** When every line is an out-of-range integer the loop asks once more
    than there are lines and ends with [EOFError]. *)
Theorem read_selection_end_of_input (prompt : string) (lines : list string) :
  Forall out_of_range lines ->
  read_selection prompt lines
  = (repeat (CRawInput prompt) (S (length lines)), [], inl Py.EOFError).
Proof.
  intros Hs. induction Hs as [| x lines (m & Hm & Hr) _ IH]; simpl.
  - reflexivity.
  - rewrite Hm, (out_of_range_test x m Hm Hr), IH. reflexivity.
Qed.

Lemma read_selection_end_of_input_witness :
  read_selection "?" ["0"; "-1"]
  = (repeat (CRawInput "?") 3, [], inl Py.EOFError).
Proof.
  apply (read_selection_end_of_input "?" ["0"; "-1"]).
  repeat constructor.
  - exists 0%Z. split; [reflexivity | lia].
  - exists (-1)%Z. split; [reflexivity | lia].
Defined.

(** ** Traces of the client against any collaborators *)

Section TraceProperties.

Context {Remote : Type} {svc : Collaborators Remote}.

Lemma emits_ret {A : Type} (P : Call -> Prop) (a : A) :
  emits P (ret (Remote := Remote) a).
Proof. intros w. constructor. Qed.

Lemma emits_raise {A : Type} (P : Call -> Prop) (e : Py.exc) :
  emits P (raise (Remote := Remote) (A := A) e).
Proof. intros w. constructor. Qed.

Lemma emits_need {A : Type} (P : Call -> Prop) (e : Py.exc) (x : option A) :
  emits P (need (Remote := Remote) e x).
Proof. destruct x; [apply emits_ret | apply emits_raise]. Qed.

Lemma emits_bind {A B : Type} (P : Call -> Prop)
    (m : M Remote A) (k : A -> M Remote B) :
  emits P m -> (forall a, emits P (k a)) -> emits P (bind m k).
Proof.
  intros Hm Hk w. unfold bind. specialize (Hm w).
  destruct (m w) as [[t1 w1] [e | a]]; [exact Hm |].
  specialize (Hk a w1). destruct (k a w1) as [[t2 w2] r].
  unfold trace_of in *. simpl in *. apply Forall_app. now split.
Qed.

Lemma emits_call {A : Type} (P : Call -> Prop) (c : Call)
    (answer : Reply Remote A) :
  P c -> emits P (call c answer).
Proof.
  intros Hc w. unfold call. destruct (answer w) as [w1 r].
  unfold trace_of. simpl. now constructor.
Qed.

Lemma emits_for_each {A : Type} (P : Call -> Prop) (l : list A)
    (body : A -> M Remote unit) :
  (forall x, emits P (body x)) -> emits P (for_each l body).
Proof.
  intros Hb. induction l as [| x l IH]; simpl.
  - apply emits_ret.
  - apply emits_bind; [apply Hb | intros _; exact IH].
Qed.

Lemma emits_ask_selection (P : Call -> Prop) (prompt : string) :
  P (CRawInput prompt) -> emits P (ask_selection (Remote := Remote) prompt).
Proof.
  intros Hp w. unfold ask_selection, trace_of.
  generalize (stdin w) as lines. induction lines as [| x lines IH]; simpl.
  - now repeat constructor.
  - destruct (Py.int x) as [m |]; [| now repeat constructor].
    destruct ((m <? 1)%Z || (m >? 4)%Z); [| now repeat constructor].
    destruct (read_selection prompt lines) as [[t u] r]. simpl in *.
    now constructor.
Qed.

(** *** [get_events] *)

Lemma event_query_fields (user_ : string) (query : option string)
    (range : string * option string) (max_results_ : Z) (expand : bool) :
  let q := event_query user_ query range max_results_ expand in
  user q = user_ /\
  text_query q = (if Py.truthy query then query else None) /\
  orderby q = Some "starttime" /\ sortorder q = Some "ascend" /\
  max_results q = Some max_results_ /\
  singleevents q = (if expand then Some "true" else None).
Proof. destruct range as [smin smax]. cbv zeta. simpl. auto 6. Qed.

Lemma get_events_run self date title query calendar max_results_ expand w :
  get_events self date title query calendar max_results_ expand w
  = let lookup := CGetSingleEntry "/calendar/feeds/default/allcalendars/full"
                                  (Py.text calendar) in
    if Py.truthy calendar then
      match util_GetSingleEntry self
              "/calendar/feeds/default/allcalendars/full"
              (Py.text calendar) w with
      | (w1, inl e) => ([lookup], w1, inl e)
      | (w1, inr None) =>
          ([lookup;
            CPrint ("No calendar matching title " ++ Py.text calendar ++ ".")],
           w1, inr None)
      | (w1, inr (Some c)) =>
          match Py.from_end (Py.split "/" (content_src c)) 3 with
          | None => ([lookup], w1, inl Py.IndexError)
          | Some part =>
              match fetch_events self (urllib_unquote part) date title query
                                 max_results_ expand w1 with
              | (t, w2, r) => (lookup :: t, w2, r)
              end
          end
      end
    else fetch_events self "default" date title query max_results_ expand w.
Proof.
  unfold get_events. cbv zeta. destruct (Py.truthy calendar); [| reflexivity].
  unfold bind at 1. unfold get_calendar, call.
  destruct (util_GetSingleEntry self _ (Py.text calendar) w)
    as [w1 [e | [c |]]]; try reflexivity.
  unfold bind, need.
  destruct (Py.from_end (Py.split "/" (content_src c)) 3) as [part |];
    [| reflexivity].
  simpl.
  destruct (fetch_events self (urllib_unquote part) date title query
                         max_results_ expand w1) as [[t w2] r].
  reflexivity.
Qed.

(** On every path [get_events] calls only the calendar lookup, the
    diagnostic and the event query; it sends at most one query, and the
    query carries the title, text query, cap and expansion flag it was
    given and is always ordered by ascending start time. *)
Theorem get_events_calls
    (self : CalendarServiceCL) (date title query calendar : option string)
    (max_results_ : Z) (expand_recurrence : bool) (w : World Remote) :
  let t := trace_of (get_events self date title query calendar max_results_
                                expand_recurrence w) in
  Forall (listing_call title query calendar max_results_ expand_recurrence) t
  /\ length (queries t) <= 1.
Proof.
  cbv zeta. rewrite get_events_run. cbv zeta.
  assert (F : forall u w',
             exists q,
               trace_of (fetch_events self u date title query max_results_
                                      expand_recurrence w')
               = [CGetEntries q title] /\
               listing_call title query calendar max_results_
                            expand_recurrence (CGetEntries q title)).
  { intros u w'. rewrite fetch_events_trace. eexists. split; [reflexivity |].
    simpl. split; [reflexivity |].
    apply (event_query_fields u query _ max_results_ expand_recurrence). }
  destruct (Py.truthy calendar).
  - destruct (util_GetSingleEntry self _ (Py.text calendar) w)
      as [w1 [e | [c |]]].
    + unfold trace_of. simpl.
      split; [repeat constructor; reflexivity | lia].
    + destruct (Py.from_end (Py.split "/" (content_src c)) 3) as [part |].
      * destruct (F (urllib_unquote part) w1) as (q & Ht & Hq).
        destruct (fetch_events self (urllib_unquote part) date title query
                               max_results_ expand_recurrence w1)
          as [[t w2] r].
        unfold trace_of in *. simpl in Ht. subst t. simpl.
        split; [| lia]. constructor; [split; reflexivity |].
        constructor; [exact Hq | constructor].
      * unfold trace_of. simpl.
        split; [repeat constructor; reflexivity | lia].
    + unfold trace_of. simpl.
      split; [repeat constructor; reflexivity | lia].
  - destruct (F "default" w) as (q & Ht & Hq). rewrite Ht. simpl.
    split; [| lia]. constructor; [exact Hq | constructor].
Qed.


(** A named calendar whose feed has fewer than three segments:
    [get_events] raises [IndexError] after the lookup and sends no query. *)
Theorem get_events_short_feed
    (self : CalendarServiceCL) (date title query calendar : option string)
    (max_results_ : Z) (expand_recurrence : bool) (w w1 : World Remote)
    (c : CalendarListEntry) :
  Py.truthy calendar = true ->
  util_GetSingleEntry self "/calendar/feeds/default/allcalendars/full"
                      (Py.text calendar) w = (w1, inr (Some c)) ->
  length (Py.split "/" (content_src c)) < 3 ->
  get_events self date title query calendar max_results_ expand_recurrence w
  = ([CGetSingleEntry "/calendar/feeds/default/allcalendars/full"
                      (Py.text calendar)], w1, inl Py.IndexError).
Proof.
  intros Hc Hl Hs. rewrite get_events_run. cbv zeta. rewrite Hc, Hl.
  assert (E : Py.from_end (Py.split "/" (content_src c)) 3 = None).
  { unfold Py.from_end. apply nth_error_None. rewrite length_rev. lia. }
  now rewrite E.
Qed.

End TraceProperties.


Lemma get_events_short_feed_witness :
  get_events (InMemory.client true) None None None (Some "Scratch") 100 true
             Fixtures.short_world
  = ([CGetSingleEntry "/calendar/feeds/default/allcalendars/full" "Scratch"],
     Fixtures.short_world, inl Py.IndexError).
Proof.
  apply (get_events_short_feed (InMemory.client true) None None None
           (Some "Scratch") 100 true Fixtures.short_world Fixtures.short_world
           {| content_src := "private/full" |}).
  - reflexivity.
  - reflexivity.
  - simpl. lia.
Defined.

(** ** The tasks and the delete flow against any collaborators *)

Section TaskProperties.

Context {Remote : Type} {svc : Collaborators Remote}.

Lemma emits_print (P : Call -> Prop) (line : string) :
  P (CPrint line) -> emits P (py_print (Remote := Remote) line).
Proof. intros Hp w. unfold py_print, trace_of. simpl. now constructor. Qed.

Lemma emits_clock (P : Call -> Prop) :
  emits P (clock_today (Remote := Remote)).
Proof. intros w. constructor. Qed.

Ltac trace_step :=
  first [ apply emits_ret | apply emits_raise | apply emits_need
        | apply emits_clock
        | apply emits_call; exact I
        | apply emits_print; exact I
        | apply emits_ask_selection; exact I
        | apply emits_for_each; intros ?
        | apply emits_bind; [| intros ?] ].

Lemma get_events_no_bulk_delete self date title query calendar max_results_
    expand :
  emits not_bulk_delete
        (get_events self date title query calendar max_results_ expand).
Proof.
  unfold get_events, fetch_events, get_calendar.
  destruct (Py.truthy calendar); repeat trace_step.
  destruct a as [c |]; repeat trace_step.
Qed.

Lemma delete_by_edit_link_no_bulk_delete (entry : CalendarEventEntry) :
  emits not_bulk_delete (delete_by_edit_link entry).
Proof. unfold delete_by_edit_link. repeat trace_step. Qed.

Lemma _batch_delete_recur_no_bulk_delete self date event calendar :
  emits not_bulk_delete (_batch_delete_recur self date event calendar).
Proof.
  unfold _batch_delete_recur.
  apply emits_bind; [apply get_events_no_bulk_delete | intros got].
  apply emits_bind; [apply emits_need | intros single_events].
  apply emits_for_each. intros d. apply delete_by_edit_link_no_bulk_delete.
Qed.

Lemma delete_recurring_no_bulk_delete self date start_date end_date calendar
    event :
  emits not_bulk_delete
        (delete_recurring self date start_date end_date calendar event).
Proof.
  unfold delete_recurring. destruct (prompt_for_delete self).
  - apply emits_bind; [apply emits_ask_selection; exact I | intros n].
    destruct (n =? 1)%Z; [apply _batch_delete_recur_no_bulk_delete |].
    destruct (n =? 2)%Z; [apply delete_by_edit_link_no_bulk_delete |].
    destruct (n =? 3)%Z; [apply _batch_delete_recur_no_bulk_delete |].
    apply emits_ret.
  - apply delete_by_edit_link_no_bulk_delete.
Qed.

Lemma bulk_deletes_none (t : list Call) :
  Forall not_bulk_delete t -> bulk_deletes t = [].
Proof.
  induction 1 as [| c t Hc _ IH]; [reflexivity |].
  destruct c; simpl; try exact IH. contradiction.
Qed.

(** With or without the prompt, and whatever the user answers,
    [delete_events] hands events to the bulk delete at most once, exactly
    once when it completes, and what it hands over are the events without
    a recurrence rule whose status is not ['CANCELED']: no series and no
    cancelled event is ever bulk-deleted. *)
Theorem delete_events_one_bulk_delete
    (self : CalendarServiceCL) (events : list CalendarEventEntry)
    (date calendar : option string) (w : World Remote) :
  let run := delete_events self (Some events) date calendar w in
  let handed d := [(single_events_of events, "event", d)] in
  (bulk_deletes (trace_of run) = [] \/
   exists d, bulk_deletes (trace_of run) = handed d) /\
  (result_of run = inr tt ->
   exists d, bulk_deletes (trace_of run) = handed d) /\
  Forall (fun e => recurrence e = None /\ event_status_value e <> "CANCELED")
         (single_events_of events).
Proof.
  cbv zeta. rewrite delete_events_run. cbv zeta.
  assert (S : Forall (fun e => recurrence e = None /\
                               event_status_value e <> "CANCELED")
                     (single_events_of events)).
  { apply Forall_forall. intros e He. unfold single_events_of in He.
    apply filter_In in He as [_ He]. apply andb_prop in He as [H1 H2].
    apply negb_true_iff in H2. apply String.eqb_neq in H2.
    destruct (recurrence e); [discriminate H1 | auto]. }
  destruct (config_getboolean "GENERAL" "delete_by_default" w)
    as [w1 [x | d]].
  { unfold trace_of, result_of. simpl.
    split; [now left |]. split; [discriminate | exact S]. }
  destruct (util_Delete self (single_events_of events) "event" d w1)
    as [w2 [x | u]].
  { unfold trace_of, result_of. simpl.
    split; [right; now exists d |]. split; [discriminate | exact S]. }
  pose proof (emits_for_each not_bulk_delete (recurring_events_of events)
                (delete_recurring self date
                   (fst (prompt_dates (get_start_and_end (today w2) date)))
                   (snd (prompt_dates (get_start_and_end (today w2) date)))
                   calendar)
                (delete_recurring_no_bulk_delete self date _ _ calendar) w2)
    as Hloop.
  destruct (for_each (recurring_events_of events) _ w2) as [[t w3] r].
  unfold trace_of, result_of in *. simpl in *.
  rewrite (bulk_deletes_none t Hloop).
  split; [right; now exists d |]. split; [now exists d | exact S].
Qed.

(** *** Answering 4 to every prompt *)

Lemma world_eta (w : World Remote) :
  Build_World Remote (stdin w) (today w) (remote w) = w.
Proof. now destruct w. Qed.

Lemma abort_loop self date start_date end_date calendar
    (l : list CalendarEventEntry) (rest : list string) :
  prompt_for_delete self = true ->
  forall w,
    stdin w = map (fun _ => "4") l ++ rest ->
    for_each l (delete_recurring self date start_date end_date calendar) w
    = (map (fun e => CRawInput (selection_prompt (title_text e)
                                                 start_date end_date)) l,
       Build_World Remote rest (today w) (remote w), inr tt).
Proof.
  intros Hp. induction l as [| e l IH]; intros w Hs; simpl in *.
  - rewrite <- Hs, world_eta. reflexivity.
  - unfold bind at 1. unfold delete_recurring at 1. rewrite Hp.
    unfold bind at 1. rewrite ask_selection_run, Hs.
    change (read_selection ?p ("4" :: ?r)) with ([CRawInput p], r, @inr Py.exc Z 4%Z).
    cbv beta iota.
    change (4 =? 1)%Z with false. change (4 =? 2)%Z with false.
    change (4 =? 3)%Z with false. cbv beta iota. unfold ret at 1.
    cbv beta iota.
    rewrite (IH (Build_World Remote (map (fun _ => "4") l ++ rest)
                             (today w) (remote w)) eq_refl).
    reflexivity.
Qed.

(** When the prompt is on and the user answers 4 to every series,
    [delete_events] makes no call after the bulk delete of the singletons
    other than one prompt per recurring event, in order, reads exactly
    one line per recurring event and completes. *)
Theorem delete_events_all_aborted
    (self : CalendarServiceCL) (events : list CalendarEventEntry)
    (date calendar : option string) (w w1 w2 : World Remote)
    (delete_default : bool) (rest : list string) :
  prompt_for_delete self = true ->
  config_getboolean "GENERAL" "delete_by_default" w
  = (w1, inr delete_default) ->
  util_Delete self (single_events_of events) "event" delete_default w1
  = (w2, inr tt) ->
  stdin w2 = map (fun _ => "4") (recurring_events_of events) ++ rest ->
  let dates := prompt_dates (get_start_and_end (today w2) date) in
  delete_events self (Some events) date calendar w
  = (CConfigGetBoolean "GENERAL" "delete_by_default"
     :: CUtilDelete (single_events_of events) "event" delete_default
     :: map (fun e => CRawInput (selection_prompt (title_text e)
                                                  (fst dates) (snd dates)))
            (recurring_events_of events),
     Build_World Remote rest (today w2) (remote w2), inr tt).
Proof.
  intros Hp Hc Hd Hs. cbv zeta. rewrite delete_events_run. cbv zeta.
  rewrite Hc, Hd.
  rewrite (abort_loop self date _ _ calendar (recurring_events_of events)
                      rest Hp w2 Hs).
  reflexivity.
Qed.

(** *** The tasks *)

Lemma for_each_print {A : Type} (f : A -> string) (l : list A) (w : World Remote) :
  for_each l (fun e => py_print (f e)) w
  = (map (fun e => CPrint (f e)) l, w, inr tt).
Proof.
  induction l as [| x l IH]; simpl; [reflexivity |].
  unfold bind, py_print at 1. rewrite IH. reflexivity.
Qed.

(** With an unresolvable calendar name the three tasks differ: after the
    lookup and the diagnostic, [list] (with a style argument) and
    [delete] raise [TypeError] and [delete] has read no configuration and
    deleted nothing; [add] completes silently, sending no batch. *)
Theorem tasks_on_unresolved_calendar
    (client : CalendarServiceCL) (options : Options)
    (style : string) (args : list string) (w w1 : World Remote) :
  Py.truthy (opt_cal options) = true ->
  util_GetSingleEntry client "/calendar/feeds/default/allcalendars/full"
                      (Py.text (opt_cal options)) w = (w1, inr None) ->
  let lookup := CGetSingleEntry "/calendar/feeds/default/allcalendars/full"
                                (Py.text (opt_cal options)) in
  let diagnostic :=
    CPrint ("No calendar matching title " ++ Py.text (opt_cal options)
            ++ ".") in
  _run_list client options (style :: args) w
  = ([lookup; diagnostic], w1, inl Py.TypeError) /\
  _run_delete client options args w
  = ([lookup; diagnostic], w1, inl Py.TypeError) /\
  _run_add client options args w = ([lookup], w1, inr tt).
Proof.
  intros Hc Hl. cbv zeta. split; [| split].
  - unfold _run_list. unfold bind at 1.
    rewrite (get_events_unresolved client _ _ _ _ 100%Z true w w1 Hc Hl).
    reflexivity.
  - unfold _run_delete. unfold bind at 1.
    rewrite (get_events_unresolved client _ _ _ _ 100%Z false w w1 Hc Hl).
    reflexivity.
  - unfold _run_add. unfold bind at 1.
    rewrite (quick_add_event_unresolved client args _ w w1 Hc Hl).
    reflexivity.
Qed.

(** A listing of the primary calendar whose fetch succeeds prints one line
    per entry, in the order fetched, formatted with the style list split
    from the first argument at its commas; the configuration is not read. *)
Theorem _run_list_prints_entries
    (client : CalendarServiceCL) (options : Options)
    (style : string) (args : list string) (w w1 : World Remote)
    (entries : list CalendarEventEntry) :
  let q := event_query "default" (opt_query options)
                       (get_start_and_end (today w) (opt_date options))
                       100 true in
  Py.truthy (opt_cal options) = false ->
  util_GetEntries client q (opt_title options) w = (w1, inr entries) ->
  _run_list client options (style :: args) w
  = (CGetEntries q (opt_title options)
     :: map (fun e => CPrint (util_entry_to_string e (Py.split "," style)
                                                   (opt_delimiter options)))
            entries,
     w1, inr tt).
Proof.
  cbv zeta. intros Hc Hq. unfold _run_list. unfold bind at 1.
  rewrite get_events_run. cbv zeta. rewrite Hc, fetch_events_run. cbv zeta.
  rewrite Hq. cbv beta iota delta [bind ret need].
  rewrite for_each_print. reflexivity.
Qed.

(** The [delete] task on the primary calendar first fetches the events
    unexpanded: its first call is the query for the given date, title and
    text with [singleevents] unset and a cap of 100. *)
Theorem _run_delete_fetches_collapsed
    (client : CalendarServiceCL) (date title query : option string)
    (delimiter : string) (args : list string) (w : World Remote) :
  let options := {| opt_date := date; opt_title := title;
                    opt_query := query; opt_cal := None;
                    opt_delimiter := delimiter |} in
  let q := event_query "default" query (get_start_and_end (today w) date)
                       100 false in
  singleevents q = None /\ max_results q = Some 100%Z /\
  exists rest,
    trace_of (_run_delete client options args w) = CGetEntries q title :: rest.
Proof.
  cbv zeta.
  destruct (event_query_fields "default" query
              (get_start_and_end (today w) date) 100 false)
    as (_ & _ & _ & _ & Hm & Hs).
  split; [exact Hs |]. split; [exact Hm |].
  unfold _run_delete. unfold bind. rewrite get_events_run. cbv zeta. simpl.
  rewrite fetch_events_run. cbv zeta.
  destruct (util_GetEntries client _ title w) as [w1 [e | entries]].
  - exists []. reflexivity.
  - destruct (delete_events client (Some entries) date None w1)
      as [[t w2] r].
    exists t. reflexivity.
Qed.

(** On every path, also when a collaborator raises, [quick_add_event]
    calls nothing but the calendar lookup and the batch: it never prints,
    prompts, queries events or deletes. *)
Theorem quick_add_event_calls
    (self : CalendarServiceCL) (quick_add_strings : list string)
    (calendar : option string) (w : World Remote) :
  Forall (quick_add_call calendar)
         (trace_of (quick_add_event self quick_add_strings calendar w)).
Proof.
  revert w. change (emits (quick_add_call calendar)
                          (quick_add_event self quick_add_strings calendar)).
  unfold quick_add_event, execute_quick_add, get_calendar.
  destruct (Py.truthy calendar).
  - apply emits_bind; [apply emits_call; split; reflexivity | intros [c |]].
    + repeat trace_step.
    + apply emits_ret.
  - repeat trace_step.
Qed.

End TaskProperties.

(** *** Listing today *)

Lemma event_query_span (user_ : string) (query : option string)
    (a b : string) (max_results_ : Z) (expand : bool) :
  no_comma a = true ->
  event_query user_ query
              (get_start_and_end a (Some (a ++ String "," b)%string))
              max_results_ expand
  = event_query user_ query (a, Some b) max_results_ expand.
Proof.
  intros Ha. destruct (string_dec (a ++ String "," b)%string ",") as [E | E].
  - destruct a as [| c a]; simpl in E.
    + injection E as ->. reflexivity.
    + simpl in Ha. injection E as -> E. discriminate Ha.
  - now rewrite (get_start_and_end_split a a b Ha E).
Qed.

(** When the formatted date of the clock holds no comma, [_run_list_today]
    on the primary calendar first queries the events from today's date to
    tomorrow's, expanded and capped at 100; the date option it was given
    plays no part. *)
Theorem _run_list_today_range
    {Remote : Type} {svc : Collaborators Remote}
    (strftime_tomorrow : World Remote -> string)
    (client : CalendarServiceCL) (options : Options) (args : list string)
    (w : World Remote) :
  no_comma (today w) = true ->
  Py.truthy (opt_cal options) = false ->
  let q := event_query "default" (opt_query options)
                       (today w, Some (strftime_tomorrow w)) 100 true in
  start_min q = (if today w =? "" then None else Some (today w)) /\
  start_max q = (if strftime_tomorrow w =? "" then None
                 else Some (strftime_tomorrow w)) /\
  exists rest,
    trace_of (_run_list_today strftime_tomorrow client options args w)
    = CGetEntries q (opt_title options) :: rest.
Proof.
  intros Hn Hc. cbv zeta. split; [| split].
  - simpl. now destruct (today w =? "").
  - simpl. now destruct (strftime_tomorrow w =? "").
  - unfold _run_list_today. cbv zeta. unfold _run_list. unfold bind at 1.
    rewrite get_events_run. cbv zeta.
    cbn [opt_cal opt_date opt_title opt_query opt_delimiter].
    rewrite Hc, fetch_events_run. cbv zeta.
    change ("," ++ strftime_tomorrow w)%string
      with (String "," (strftime_tomorrow w)).
    rewrite (event_query_span "default" (opt_query options) (today w)
                              (strftime_tomorrow w) 100 true Hn).
    destruct (util_GetEntries client _ (opt_title options) w)
      as [w1 [e | entries]].
    + exists []. reflexivity.
    + match goal with
      | |- context [bind ?m ?k w1] => destruct (bind m k w1) as [[t w2] r]
      end.
      exists t. reflexivity.
Qed.

Lemma _run_list_today_range_witness :
  exists rest,
    trace_of (_run_list_today Fixtures.tomorrow (InMemory.client true)
                (Fixtures.options None) ["title"] (InMemory.world []))
    = CGetEntries (event_query "default" None
                               ("2010-06-10", Some "2010-06-11") 100 true)
                  (Some "Standup") :: rest.
Proof.
  exact (proj2 (proj2
    (_run_list_today_range Fixtures.tomorrow (InMemory.client true)
       (Fixtures.options None) ["title"] (InMemory.world [])
       eq_refl eq_refl))).
Defined.

(** ** Witnesses on the in-memory service *)

Lemma delete_events_all_aborted_witness :
  delete_events (InMemory.client true)
    (Some [InMemory.standup; InMemory.lunch; InMemory.review])
    (Some "2010-06-01,") None (InMemory.world ["4"; "4"; "2"])
  = ([CConfigGetBoolean "GENERAL" "delete_by_default";
      CUtilDelete [InMemory.lunch] "event" true;
      CRawInput (selection_prompt (Some "Standup") "2010-06-01"
                                  "the distant future");
      CRawInput (selection_prompt (Some "Standup review") "2010-06-01"
                                  "the distant future")],
     InMemory.world ["2"], inr tt).
Proof.
  exact (delete_events_all_aborted (InMemory.client true)
           [InMemory.standup; InMemory.lunch; InMemory.review]
           (Some "2010-06-01,") None
           (InMemory.world ["4"; "4"; "2"]) (InMemory.world ["4"; "4"; "2"])
           (InMemory.world ["4"; "4"; "2"]) true ["2"]
           eq_refl eq_refl eq_refl eq_refl).
Defined.

Lemma tasks_on_unresolved_calendar_witness :
  let lookup :=
    CGetSingleEntry "/calendar/feeds/default/allcalendars/full" "Nope" in
  let diagnostic := CPrint "No calendar matching title Nope." in
  _run_list (InMemory.client true) (Fixtures.options (Some "Nope"))
            ["title"] (InMemory.world [])
  = ([lookup; diagnostic], InMemory.world [], inl Py.TypeError) /\
  _run_delete (InMemory.client true) (Fixtures.options (Some "Nope")) []
              (InMemory.world [])
  = ([lookup; diagnostic], InMemory.world [], inl Py.TypeError) /\
  _run_add (InMemory.client true) (Fixtures.options (Some "Nope")) []
           (InMemory.world [])
  = ([lookup], InMemory.world [], inr tt).
Proof.
  exact (tasks_on_unresolved_calendar (InMemory.client true)
           (Fixtures.options (Some "Nope")) "title" []
           (InMemory.world []) (InMemory.world []) eq_refl eq_refl).
Defined.

Lemma _run_list_prints_entries_witness :
  _run_list (InMemory.client true) (Fixtures.options None)
            ["title,when"] (InMemory.world [])
  = ([CGetEntries (event_query "default" None
                               ("2010-06-01", Some "2010-06-20") 100 true)
                  (Some "Standup");
      CPrint "Standup"; CPrint "Standup"; CPrint "Standup"; CPrint "Standup"],
     InMemory.world [], inr tt).
Proof.
  exact (_run_list_prints_entries (InMemory.client true)
           (Fixtures.options None) "title,when" []
           (InMemory.world []) (InMemory.world [])
           (InMemory.expanded InMemory.store) eq_refl eq_refl).
Defined.

(** * The delete flow, series by series *)

Lemma split_without_slash (s : string) :
  no_slash s = true -> Py.split "/" s = [s].
Proof.
  induction s as [| c s IH]; simpl; intros H; [reflexivity |].
  apply andb_prop in H as [Hc Hs]. apply negb_true_iff in Hc.
  rewrite Hc, (IH Hs). reflexivity.
Qed.

Lemma split_app_slash (p s : string) :
  Py.split "/" (p ++ String "/" s)%string = Py.split "/" p ++ Py.split "/" s.
Proof.
  induction p as [| c p IH]; simpl; [reflexivity |].
  destruct (Ascii.eqb c "/").
  - now rewrite IH.
  - rewrite IH. pose proof (split_not_nil "/" p) as Hn.
    destruct (Py.split "/" p) as [| piece pieces]; [contradiction |].
    reflexivity.
Qed.

(** The id a series is matched by is the text after the last slash of its
    id text. *)
Lemma last_segment_after_slash (prefix seg : string) :
  no_slash seg = true ->
  last (Py.split "/" (prefix ++ String "/" seg)%string) "" = seg.
Proof.
  intros H. rewrite split_app_slash, (split_without_slash seg H).
  apply last_last.
Qed.

Lemma instance_of_refers_to (event e : CalendarEventEntry) :
  instance_of event e = true <->
  refers_to (last (Py.split "/" (id_text event)) "") e.
Proof.
  split.
  - exact (instance_of_true event e).
  - intros (o & Ho & Hi). unfold instance_of. rewrite Ho, Hi.
    apply String.eqb_refl.
Qed.

Section DeleteFlow.

Context {Remote : Type} {svc : Collaborators Remote}.

Lemma for_each_app {A : Type} (l1 l2 : list A) (f : A -> M Remote unit) :
  forall w,
    for_each (l1 ++ l2) f w
    = match for_each l1 f w with
      | (t1, w1, inl e) => (t1, w1, inl e)
      | (t1, w1, inr _) =>
          match for_each l2 f w1 with
          | (t2, w2, r) => (t1 ++ t2, w2, r)
          end
      end.
Proof.
  induction l1 as [| x l1 IH]; intros w; simpl.
  - destruct (for_each l2 f w) as [[t2 w2] r]. reflexivity.
  - unfold bind. destruct (f x w) as [[t w'] [e | u]]; [reflexivity |].
    rewrite IH. destruct (for_each l1 f w') as [[t1 w1] [e | u1]].
    + reflexivity.
    + destruct (for_each l2 f w1) as [[t2 w2] r].
      now rewrite app_assoc.
Qed.

Lemma for_each_ext {A : Type} (l : list A) (f g : A -> M Remote unit) :
  (forall x w, f x w = g x w) ->
  forall w, for_each l f w = for_each l g w.
Proof.
  intros E. induction l as [| x l IH]; intros w; simpl; [reflexivity |].
  unfold bind. rewrite E.
  destruct (g x w) as [[t1 w1] [e | u]]; [reflexivity |].
  now rewrite IH.
Qed.

(** A loop of deletes by edit link sends exactly the requests of
    [issued_deletes] and completes exactly when [all_deleted] holds. *)
Lemma for_each_delete_issued (l : list CalendarEventEntry) :
  forall w,
    trace_of (for_each l delete_by_edit_link w)
    = map CGDataDelete (issued_deletes l w) /\
    (result_of (for_each l delete_by_edit_link w) = inr tt <->
     all_deleted l w).
Proof.
  induction l as [| e l IH]; intros w.
  - simpl. split; [reflexivity |]. split; auto.
  - rewrite for_each_cons, delete_by_edit_link_run. simpl.
    destruct (GetEditLink e) as [a_link |] eqn:El.
    + destruct (gdata_Delete (href a_link) w) as [w1 [x | u]] eqn:Ed.
      * unfold trace_of, result_of. simpl. split; [reflexivity |].
        split; [discriminate |].
        intros (a' & w1' & Ha & Hd & _). congruence.
      * destruct (IH w1) as [Ht Hr].
        destruct (for_each l delete_by_edit_link w1) as [[t2 w2] r].
        unfold trace_of, result_of in *. simpl in *.
        split; [now rewrite Ht |]. rewrite Hr. destruct u. split.
        -- intros H. now exists a_link, w1.
        -- intros (a' & w1' & Ha & Hd & H). congruence.
    + unfold trace_of, result_of. simpl. split; [reflexivity |].
      split; [discriminate |].
      intros (a' & w1' & Ha & _). discriminate Ha.
Qed.

Lemma issued_deletes_prefix (l : list CalendarEventEntry) :
  forall w, exists k,
    map Some (issued_deletes l w) = firstn k (map edit_href l).
Proof.
  induction l as [| e l IH]; intros w; simpl.
  - exists 0. reflexivity.
  - unfold edit_href at 1. destruct (GetEditLink e) as [a_link |]; simpl.
    + destruct (gdata_Delete (href a_link) w) as [w1 [x | u]].
      * exists 1. reflexivity.
      * destruct (IH w1) as [k Hk]. exists (S k). simpl. now rewrite Hk.
    + exists 0. reflexivity.
Qed.

Lemma issued_deletes_all (l : list CalendarEventEntry) :
  forall w, all_deleted l w ->
            map Some (issued_deletes l w) = map edit_href l.
Proof.
  induction l as [| e l IH]; intros w; simpl; [reflexivity |].
  intros (a_link & w1 & Ha & Hd & H). unfold edit_href at 1.
  rewrite Ha, Hd. simpl. now rewrite (IH w1 H).
Qed.

(** [_batch_delete_recur] re-queries, then deletes the matching instances
    in turn. *)
Lemma _batch_delete_recur_issued self date event calendar w :
  let fetched :=
    get_events self date (title_text event) None calendar 100 true w in
  let targets :=
    filter (instance_of event) (fetched_list (result_of fetched)) in
  let run := _batch_delete_recur self date event calendar w in
  trace_of run
  = trace_of fetched
    ++ map CGDataDelete (issued_deletes targets (world_of fetched)) /\
  (result_of run = inr tt <->
   (exists l, result_of fetched = inr (Some l)) /\
   all_deleted targets (world_of fetched)).
Proof.
  cbv zeta. rewrite _batch_delete_recur_run.
  destruct (get_events self date (title_text event) None calendar 100 true w)
    as [[t1 w1] [x | [l |]]];
    unfold trace_of, result_of, world_of, fetched_list; simpl.
  - rewrite app_nil_r. split; [reflexivity |]. split; [discriminate |].
    intros [[l Hl] _]. discriminate Hl.
  - destruct (for_each_delete_issued (filter (instance_of event) l) w1)
      as [Ht Hr].
    destruct (for_each (filter (instance_of event) l) delete_by_edit_link w1)
      as [[t2 w2] r].
    unfold trace_of, result_of in *. simpl in *. rewrite Ht.
    split; [reflexivity |]. rewrite Hr. split.
    + intros H. split; [now exists l | exact H].
    + intros [_ H]. exact H.
  - rewrite app_nil_r. split; [reflexivity |]. split; [discriminate |].
    intros [[l Hl] _]. discriminate Hl.
Qed.

(** C9, amended: with [prompt_for_delete] false, once the configuration
    is read and the singletons are handed to the bulk delete,
    [delete_events] sends nothing but [Delete] requests on the recurring
    events' own edit links, one per event in input order, with no re-query
    and no prompt.  It stops at the first recurring event without an edit
    link or after the first request that raises, and it completes, having
    sent exactly one request for every recurring event, exactly when every
    recurring event has an edit link and every request succeeds. *)
Theorem delete_events_without_prompt_deletes_series
    (self : CalendarServiceCL) (events : list CalendarEventEntry)
    (date calendar : option string) (w w1 w2 : World Remote)
    (delete_default : bool) :
  prompt_for_delete self = false ->
  config_getboolean "GENERAL" "delete_by_default" w
  = (w1, inr delete_default) ->
  util_Delete self (single_events_of events) "event" delete_default w1
  = (w2, inr tt) ->
  let run := delete_events self (Some events) date calendar w in
  let recurring := recurring_events_of events in
  let deletes := issued_deletes recurring w2 in
  trace_of run
  = CConfigGetBoolean "GENERAL" "delete_by_default"
    :: CUtilDelete (single_events_of events) "event" delete_default
    :: map CGDataDelete deletes /\
  (exists k, map Some deletes = firstn k (map edit_href recurring)) /\
  (result_of run = inr tt <-> all_deleted recurring w2) /\
  (all_deleted recurring w2 -> map Some deletes = map edit_href recurring).
Proof.
  intros Hp Hc Hd. cbv zeta. rewrite delete_events_run. cbv zeta.
  rewrite Hc, Hd.
  rewrite (for_each_ext (recurring_events_of events) _ delete_by_edit_link).
  2:{ intros e w'. unfold delete_recurring. now rewrite Hp. }
  destruct (for_each_delete_issued (recurring_events_of events) w2)
    as [Ht Hr].
  destruct (for_each (recurring_events_of events) delete_by_edit_link w2)
    as [[t w3] r].
  unfold trace_of, result_of in *. simpl in *. rewrite Ht.
  split; [reflexivity |].
  split; [apply issued_deletes_prefix |].
  split; [exact Hr | apply issued_deletes_all].
Qed.

(** C6, amended: when the user answers 1 at the prompt of a recurring
    series, [delete_events] re-queries the expanded instances of the
    original date range under the series' title and then sends [Delete]
    requests, in the order of the re-query, on the edit links of the
    instances whose original-event id is the last path segment of the
    series' id text, and on nothing else.  It stops at the first such
    instance without an edit link or after the first request that raises,
    and the choice completes, every such instance deleted, exactly when
    the re-query returned a list, each of them has an edit link and every
    request succeeds. *)
Theorem delete_choice_1_deletes_matching_instances
    (self : CalendarServiceCL) (events : list CalendarEventEntry)
    (date calendar : option string) (w w1 w2 w3 : World Remote)
    (delete_default : bool) (before after : list CalendarEventEntry)
    (event : CalendarEventEntry) (t0 asked : list Call)
    (unread : list string) :
  prompt_for_delete self = true ->
  config_getboolean "GENERAL" "delete_by_default" w
  = (w1, inr delete_default) ->
  util_Delete self (single_events_of events) "event" delete_default w1
  = (w2, inr tt) ->
  recurring_events_of events = before ++ event :: after ->
  let dates := prompt_dates (get_start_and_end (today w2) date) in
  let body := delete_recurring self date (fst dates) (snd dates) calendar in
  for_each before body w2 = (t0, w3, inr tt) ->
  read_selection (selection_prompt (title_text event) (fst dates) (snd dates))
                 (stdin w3) = (asked, unread, inr 1%Z) ->
  let fetched :=
    get_events self date (title_text event) None calendar 100 true
               (Build_World Remote unread (today w3) (remote w3)) in
  let instances := fetched_list (result_of fetched) in
  let series := last (Py.split "/" (id_text event)) "" in
  let targets := filter (instance_of event) instances in
  let deletes := issued_deletes targets (world_of fetched) in
  let step := body event w3 in
  let rest :=
    match result_of step with
    | inr _ => trace_of (for_each after body (world_of step))
    | inl _ => []
    end in
  (forall prefix seg,
     id_text event = (prefix ++ String "/" seg)%string ->
     no_slash seg = true -> series = seg) /\
  (forall e, In e targets <-> In e instances /\ refers_to series e) /\
  trace_of step = asked ++ trace_of fetched ++ map CGDataDelete deletes /\
  trace_of (delete_events self (Some events) date calendar w)
  = CConfigGetBoolean "GENERAL" "delete_by_default"
    :: CUtilDelete (single_events_of events) "event" delete_default
    :: t0 ++ trace_of step ++ rest /\
  (exists k, map Some deletes = firstn k (map edit_href targets)) /\
  (result_of step = inr tt <->
   (exists l, result_of fetched = inr (Some l)) /\
   all_deleted targets (world_of fetched)) /\
  (all_deleted targets (world_of fetched) ->
   map Some deletes = map edit_href targets) /\
  (forall uri, In uri deletes ->
     exists e, In e instances /\ edit_href e = Some uri /\
               refers_to series e).
Proof.
  intros Hp Hc Hd Hrec dates body Hbefore Hsel. cbv zeta.
  set (w4 := Build_World Remote unread (today w3) (remote w3)).
  set (fetched := get_events self date (title_text event) None calendar 100
                             true w4).
  set (targets := filter (instance_of event)
                         (fetched_list (result_of fetched))).
  assert (Hin : forall e, In e targets <->
                  In e (fetched_list (result_of fetched)) /\
                  refers_to (last (Py.split "/" (id_text event)) "") e).
  { intros e. unfold targets. rewrite filter_In, instance_of_refers_to.
    reflexivity. }
  assert (Hstep : body event w3
                  = match _batch_delete_recur self date event calendar w4 with
                    | (t2, w5, r) => (asked ++ t2, w5, r)
                    end).
  { exact (delete_recurring_range self date (fst dates) (snd dates) calendar
             event w3 asked unread Hp Hsel). }
  destruct (_batch_delete_recur_issued self date event calendar w4)
    as [Ht Hr].
  fold fetched in Ht, Hr. fold targets in Ht, Hr.
  destruct (issued_deletes_prefix targets (world_of fetched)) as [k Hk].
  split.
  { intros prefix seg E Hs. rewrite E. now apply last_segment_after_slash. }
  split; [exact Hin |].
  split.
  { rewrite Hstep.
    destruct (_batch_delete_recur self date event calendar w4) as [[t2 w5] r].
    unfold trace_of in *. simpl in *. now rewrite Ht. }
  split.
  { rewrite delete_events_run. cbv zeta. rewrite Hc, Hd, Hrec.
    change (delete_recurring self date _ _ calendar) with body.
    rewrite for_each_app, Hbefore, for_each_cons.
    destruct (body event w3) as [[ts ws] [x | u]];
      unfold trace_of, result_of, world_of; simpl.
    - now rewrite app_nil_r.
    - destruct (for_each after body ws) as [[ta wa] ra]. reflexivity. }
  split; [now exists k |].
  split.
  { rewrite Hstep.
    destruct (_batch_delete_recur self date event calendar w4) as [[t2 w5] r].
    unfold result_of in *. simpl in *. exact Hr. }
  split; [apply issued_deletes_all |].
  intros uri Hu. apply (in_map Some) in Hu. rewrite Hk in Hu.
  apply in_firstn_in in Hu. apply in_map_iff in Hu as (e & He & Hm).
  apply Hin in Hm as [Hl Href]. now exists e.
Qed.

End DeleteFlow.

Lemma delete_events_without_prompt_deletes_series_witness :
  let events := [InMemory.standup; InMemory.lunch; InMemory.dentist;
                 InMemory.review] in
  trace_of (delete_events (InMemory.client false) (Some events)
              (Some "2010-06-01,2010-06-20") None (InMemory.world []))
  = [CConfigGetBoolean "GENERAL" "delete_by_default";
     CUtilDelete [InMemory.lunch] "event" true;
     CGDataDelete "/full/abc/edit"; CGDataDelete "/full/xyz/edit"].
Proof.
  exact (proj1 (delete_events_without_prompt_deletes_series
                  (InMemory.client false)
                  [InMemory.standup; InMemory.lunch; InMemory.dentist;
                   InMemory.review]
                  (Some "2010-06-01,2010-06-20") None
                  (InMemory.world []) (InMemory.world []) (InMemory.world [])
                  true eq_refl eq_refl eq_refl)).
Defined.

(** C9 as stated fails: a recurring event of a read-only calendar has no
    edit link; with the prompt off [delete_events] raises
    [AttributeError] at it and sends no [Delete] request at all, neither
    for it nor for the series after it that has an edit link. *)
Lemma no_prompt_stops_at_series_without_edit_link :
  let events := [Fixtures.locked_series; InMemory.standup] in
  recurring_events_of events = events /\
  GetEditLink Fixtures.locked_series = None /\
  edit_href InMemory.standup = Some "/full/abc/edit" /\
  delete_events (InMemory.client false) (Some events)
                (Some "2010-06-01,2010-06-20") None (InMemory.world [])
  = ([CConfigGetBoolean "GENERAL" "delete_by_default";
      CUtilDelete [] "event" true],
     InMemory.world [], inl Py.AttributeError).
Proof. cbv zeta. repeat split. Qed.

Lemma delete_choice_1_deletes_matching_instances_witness :
  let events := [InMemory.lunch; InMemory.review; InMemory.standup] in
  let ask title :=
    CRawInput (selection_prompt (Some title) "2010-06-01" "2010-06-20") in
  trace_of (delete_events (InMemory.client true) (Some events)
              (Some "2010-06-01,2010-06-20") None
              (InMemory.world ["4"; "7"; "1"]))
  = [CConfigGetBoolean "GENERAL" "delete_by_default";
     CUtilDelete [InMemory.lunch] "event" true;
     ask "Standup review";
     ask "Standup"; ask "Standup";
     CGetEntries (event_query "default" None
                              ("2010-06-01", Some "2010-06-20") 100 true)
                 (Some "Standup");
     CGDataDelete "/full/abc_1/edit"; CGDataDelete "/full/abc_2/edit"].
Proof.
  cbv zeta.
  pose proof (delete_choice_1_deletes_matching_instances
                (InMemory.client true)
                [InMemory.lunch; InMemory.review; InMemory.standup]
                (Some "2010-06-01,2010-06-20") None
                (InMemory.world ["4"; "7"; "1"])
                (InMemory.world ["4"; "7"; "1"])
                (InMemory.world ["4"; "7"; "1"])
                (InMemory.world ["7"; "1"])
                true [InMemory.review] [] InMemory.standup
                [CRawInput (selection_prompt (Some "Standup review")
                                             "2010-06-01" "2010-06-20")]
                [CRawInput (selection_prompt (Some "Standup")
                                             "2010-06-01" "2010-06-20");
                 CRawInput (selection_prompt (Some "Standup")
                                             "2010-06-01" "2010-06-20")]
                []
                eq_refl eq_refl eq_refl eq_refl eq_refl eq_refl) as H.
  exact (proj1 (proj2 (proj2 (proj2 H)))).
Defined.

(** C6 as stated fails: the re-query returns two instances that point
    back to the series; the first has no edit link, so choice 1 raises
    [AttributeError] at it and deletes neither of them. *)
Lemma choice_1_stops_at_instance_without_edit_link :
  let w := Fixtures.locked_world ["1"] in
  let q := event_query "default" None ("2010-06-01", Some "2010-06-20")
                       100 true in
  let instances := InMemory.entries_for q (Some "Standup") (remote w) in
  instances = [Fixtures.locked_instance;
               InMemory.instance (Some "abc") "/full/abc_2"] /\
  Forall (refers_to (last (Py.split "/" (id_text InMemory.standup)) ""))
         instances /\
  delete_events (InMemory.client true) (Some [InMemory.standup])
                (Some "2010-06-01,2010-06-20") None w
  = ([CConfigGetBoolean "GENERAL" "delete_by_default";
      CUtilDelete [] "event" true;
      CRawInput (selection_prompt (Some "Standup") "2010-06-01"
                                  "2010-06-20");
      CGetEntries q (Some "Standup")],
     Fixtures.locked_world [], inl Py.AttributeError).
Proof.
  cbv zeta. split; [reflexivity |]. split; [| reflexivity].
  repeat constructor; eexists; split; reflexivity.
Qed.
